(** * VibeFlow: the event -> metric -> score -> nudge pipeline

    A shallow embedding of the scoring and classification core of the
    VibeFlow editor extension, and the properties of it that the
    specification states.

    The repository carries two variants of the extension:
    - the windowed variant (the extension source bundled after the README in
      [src/README.md]): sliding activity window, thresholds 70/45, jitter
      [Math.floor(Math.random() * 6 - 3)];
    - the simplified variant ([src/extension.js], "Demo-friendly
      computeFlow"): no activity window, thresholds 70/40, jitter
      [Math.floor(Math.random() * 10 - 5)], a penalty for AI rejections.
    They live in the modules [Windowed] and [Demo] below.

    Numbers.  Counters, sizes and millisecond timestamps are JavaScript
    integers and are modelled in [Z].  The intermediate real-valued
    quantities (rates, weights, decays) are modelled as exact rationals [Q];
    [Math.round] and [Math.floor] bring them back to [Z].

    Host.  [Date.now()] and [Math.random()] are the two sources of
    non-determinism.  They are modelled as oracles indexed by the number of
    calls made so far; the program state counts the calls.  Handlers run in
    ExtLib's state monad over the program state. *)

From Stdlib Require Import ZArith QArith Qround Qminmax List Sorted String Ascii Bool Lia Lqa.
From ExtLib Require Import Structures.Monad Structures.MonadState Data.Monads.StateMonad.
Import ListNotations.
Import MonadNotation.
Local Open Scope monad_scope.
Local Open Scope Z_scope.

(** ** JavaScript primitives *)

Module JS.

(** [x || y] on numbers: [0] is falsy. *)
Definition or (x y : Z) : Z := if x =? 0 then y else x.

(** [o || y] where [o] may be [undefined] (as produced by [?.]). *)
Definition orElse (o : option Z) (y : Z) : Z :=
  match o with
  | Some x => or x y
  | None => y
  end.

(** [Math.round]: nearest integer, ties towards +infinity. *)
Definition Math_round (x : Q) : Z := Qfloor (x + (1 # 2)).

Definition Math_floor (x : Q) : Z := Qfloor x.

(** [x < y] on numbers. *)
Definition lt (x y : Q) : bool := negb (Qle_bool y x).

(** [a / b] for integer operands, [b] non-zero. *)
Definition div (a b : Z) : Q := inject_Z a / inject_Z b.

(** [arr.at(-1)]. *)
Definition at_last {A : Type} (l : list A) : option A :=
  match rev l with
  | [] => None
  | a :: _ => Some a
  end.

(** [s.includes("\n")]. *)
Fixpoint includes_newline (s : string) : bool :=
  match s with
  | EmptyString => false
  | String c r => if Ascii.eqb c "010"%char then true else includes_newline r
  end.

(** [s.length]. *)
Definition length (s : string) : Z := Z.of_nat (String.length s).

End JS.

(** ** Data model *)

(** The runtime metrics object. *)
Record Metrics : Type := mkMetrics {
  lastChangeTs : Z;
  totalInsertions : Z;
  totalDeletions : Z;
  aiInsertions : Z;
  aiRejections : Z;
  undoCount : Z;
  consecutiveLow : Z
}.

Definition set_lastChangeTs (v : Z) (m : Metrics) : Metrics :=
  mkMetrics v (totalInsertions m) (totalDeletions m) (aiInsertions m)
            (aiRejections m) (undoCount m) (consecutiveLow m).
Definition set_totalInsertions (v : Z) (m : Metrics) : Metrics :=
  mkMetrics (lastChangeTs m) v (totalDeletions m) (aiInsertions m)
            (aiRejections m) (undoCount m) (consecutiveLow m).
Definition set_totalDeletions (v : Z) (m : Metrics) : Metrics :=
  mkMetrics (lastChangeTs m) (totalInsertions m) v (aiInsertions m)
            (aiRejections m) (undoCount m) (consecutiveLow m).
Definition set_aiInsertions (v : Z) (m : Metrics) : Metrics :=
  mkMetrics (lastChangeTs m) (totalInsertions m) (totalDeletions m) v
            (aiRejections m) (undoCount m) (consecutiveLow m).
Definition set_aiRejections (v : Z) (m : Metrics) : Metrics :=
  mkMetrics (lastChangeTs m) (totalInsertions m) (totalDeletions m)
            (aiInsertions m) v (undoCount m) (consecutiveLow m).
Definition set_undoCount (v : Z) (m : Metrics) : Metrics :=
  mkMetrics (lastChangeTs m) (totalInsertions m) (totalDeletions m)
            (aiInsertions m) (aiRejections m) v (consecutiveLow m).
Definition set_consecutiveLow (v : Z) (m : Metrics) : Metrics :=
  mkMetrics (lastChangeTs m) (totalInsertions m) (totalDeletions m)
            (aiInsertions m) (aiRejections m) (undoCount m) v.

(** An entry [{ ts, size }] of the [activity] array. *)
Record ActivityEntry : Type := mkActivity { a_ts : Z; a_size : Z }.

(** An entry [{ ts, flow }] of the [history] array. *)
Record FlowSample : Type := mkSample { h_ts : Z; h_flow : Z }.

(** The objects handed to [logEvent], without the [ts] it stamps on them. *)
Inductive EventBody : Type :=
| ev_insert (size : Z)
| ev_ai_accept (size : Z)
| ev_delete (size : Z)
| ev_replace (sizeInserted sizeRemoved : Z)
| ev_ai_replace (sizeInserted sizeRemoved : Z)
| ev_ai_reject
| ev_nudge (action : string)
| ev_assist_toggle (enabled : bool).

(** The [type] field of a logged object. *)
Definition ev_type (b : EventBody) : string :=
  match b with
  | ev_insert _ => "insert"
  | ev_ai_accept _ => "ai.accept"
  | ev_delete _ => "delete"
  | ev_replace _ _ => "replace"
  | ev_ai_replace _ _ => "ai.replace"
  | ev_ai_reject => "ai.reject"
  | ev_nudge _ => "nudge"
  | ev_assist_toggle _ => "assist.toggle"
  end.

Record Event : Type := mkEvent { ev_body : EventBody; ev_ts : Z }.

(** One element of [e.contentChanges]: the host's
    [TextDocumentContentChangeEvent], whose [text] is a string and whose
    [rangeLength] is a number. *)
Record Change : Type := mkChange { text : string; rangeLength : Z }.

(** A call of [vscode.window.showInformationMessage(message, ...items)]. *)
Record Prompt : Type := mkPrompt { p_message : string; p_items : list string }.

(** The status bar item: the score it displays and its colour
    ([None] is [undefined], the theme's default). *)
Record StatusBar : Type := mkStatusBar {
  sb_flow : option Z;
  sb_color : option string
}.

(** Everything [activate] closes over, and the two call counters of the
    host oracles. *)
Record State : Type := mkState' {
  metrics : Metrics;
  activity : list ActivityEntry;
  history : list FlowSample;
  events : list Event;
  assistMode : bool;
  lastUpdate : Z;
  statusBar : StatusBar;
  shown : list Prompt;
  clockReads : nat;
  randomDraws : nat
}.

Definition set_metrics (v : Metrics) (s : State) : State :=
  mkState' v (activity s) (history s) (events s) (assistMode s) (lastUpdate s)
           (statusBar s) (shown s) (clockReads s) (randomDraws s).
Definition set_activity (v : list ActivityEntry) (s : State) : State :=
  mkState' (metrics s) v (history s) (events s) (assistMode s) (lastUpdate s)
           (statusBar s) (shown s) (clockReads s) (randomDraws s).
Definition set_history (v : list FlowSample) (s : State) : State :=
  mkState' (metrics s) (activity s) v (events s) (assistMode s) (lastUpdate s)
           (statusBar s) (shown s) (clockReads s) (randomDraws s).
Definition set_events (v : list Event) (s : State) : State :=
  mkState' (metrics s) (activity s) (history s) v (assistMode s) (lastUpdate s)
           (statusBar s) (shown s) (clockReads s) (randomDraws s).
Definition set_assistMode (v : bool) (s : State) : State :=
  mkState' (metrics s) (activity s) (history s) (events s) v (lastUpdate s)
           (statusBar s) (shown s) (clockReads s) (randomDraws s).
Definition set_lastUpdate (v : Z) (s : State) : State :=
  mkState' (metrics s) (activity s) (history s) (events s) (assistMode s) v
           (statusBar s) (shown s) (clockReads s) (randomDraws s).
Definition set_statusBar (v : StatusBar) (s : State) : State :=
  mkState' (metrics s) (activity s) (history s) (events s) (assistMode s)
           (lastUpdate s) v (shown s) (clockReads s) (randomDraws s).
Definition set_shown (v : list Prompt) (s : State) : State :=
  mkState' (metrics s) (activity s) (history s) (events s) (assistMode s)
           (lastUpdate s) (statusBar s) v (clockReads s) (randomDraws s).
Definition set_clockReads (v : nat) (s : State) : State :=
  mkState' (metrics s) (activity s) (history s) (events s) (assistMode s)
           (lastUpdate s) (statusBar s) (shown s) v (randomDraws s).
Definition set_randomDraws (v : nat) (s : State) : State :=
  mkState' (metrics s) (activity s) (history s) (events s) (assistMode s)
           (lastUpdate s) (statusBar s) (shown s) (clockReads s) v.

(** The host: what the k-th call of [Date.now()] and of [Math.random()]
    returns. *)
Record Host : Type := mkHost {
  clock : nat -> Z;
  random : nat -> Q
}.

(** ** Effects shared by the two variants *)

Definition M : Type -> Type := state State.

Section HostEffects.

Variable host : Host.

(** [Date.now()] *)
Definition Date_now : M Z :=
  s <- get ;;
  put (set_clockReads (S (clockReads s)) s) ;;
  ret (clock host (clockReads s)).

(** [Math.random()] *)
Definition Math_random : M Q :=
  s <- get ;;
  put (set_randomDraws (S (randomDraws s)) s) ;;
  ret (random host (randomDraws s)).

(** [metrics.f = v] and friends. *)
Definition update_metrics (f : Metrics -> Metrics) : M unit :=
  s <- get ;; put (set_metrics (f (metrics s)) s).

(** [function logEvent(obj) { obj.ts = Date.now(); events.push(obj); ... }]
    (the [globalState.update] that follows persists the same array). *)
Definition logEvent (obj : EventBody) : M unit :=
  ts <- Date_now ;;
  s <- get ;;
  put (set_events (events s ++ [mkEvent obj ts]) s).

(** [vscode.window.showInformationMessage(message, ...items)]; the promise
    it returns is resolved by the host later, in a handler of its own. *)
Definition showInformationMessage (message : string) (items : list string) : M unit :=
  s <- get ;; put (set_shown (shown s ++ [mkPrompt message items]) s).

End HostEffects.

(** The low-flow nudge of [updateStatus], the same in both variants. *)
Definition nudgePrompt : Prompt :=
  mkPrompt "VibeFlow: low flow detected. Try a short break or request a hint."
           ["Take Break"; "Request Hint"; "Ignore"]%string.

(** [history.push(sample); if (history.length > 20000) history.shift();] *)
Definition pushHistory (sample : FlowSample) (h : list FlowSample) : list FlowSample :=
  let h1 := h ++ [sample] in
  if Z.of_nat (List.length h1) >? 20000 then tl h1 else h1.

(** The [.then((choice) => { ... })] continuation of the nudge: the host
    calls it with the item the user picked, or with [None] ([undefined])
    when the prompt was dismissed. *)
Definition onNudgeChoice (host : Host) (choice : option string) : M unit :=
  match choice with
  | Some "Take Break"%string =>
      showInformationMessage "Take a 2-minute break. Step away and stretch." [] ;;
      logEvent host (ev_nudge "break")
  | Some "Request Hint"%string =>
      showInformationMessage
        "Hint: isolate the problem; add logs or write a failing test." [] ;;
      logEvent host (ev_nudge "hint")
  | _ => logEvent host (ev_nudge "ignored")
  end.

(** ** The windowed variant (the extension source in [src/README.md]) *)

Module Windowed.

Definition windowSize : Z := 60000.

(** [activity.filter(a => now - a.ts < windowSize)] *)
Definition recentOf (now : Z) (act : list ActivityEntry) : list ActivityEntry :=
  filter (fun a => now - a_ts a <? windowSize) act.

(** The body of [recent.forEach(a => { ... keystrokeScore += ... })]. *)
Definition keystrokeStep (now : Z) (acc : Q) (a : ActivityEntry) : Q :=
  let ageSec := JS.div (now - a_ts a) 1000 in
  let weight := Qmax 0 (1 - ageSec / 60) in
  (acc + weight * Qmin (inject_Z (JS.or (a_size a) 1)) 20)%Q.

Definition keystrokeScore (now : Z) (recent : list ActivityEntry) : Q :=
  Qmin (fold_left (keystrokeStep now) recent 0%Q) 50.

(** [recent.map((a, i) => (i === 0 ? 0 : a.ts - recent[i - 1].ts))] *)
Fixpoint gapsAfter (prev : ActivityEntry) (l : list ActivityEntry) : list Z :=
  match l with
  | [] => []
  | a :: r => (a_ts a - a_ts prev) :: gapsAfter a r
  end.

Definition gaps (recent : list ActivityEntry) : list Z :=
  match recent with
  | [] => []
  | a :: r => 0 :: gapsAfter a r
  end.

(** [gaps.length ? gaps.reduce((a, b) => a + b, 0) / gaps.length : 0] *)
Definition avgGap (recent : list ActivityEntry) : Q :=
  let g := gaps recent in
  match g with
  | [] => 0%Q
  | _ :: _ => JS.div (fold_left Z.add g 0) (Z.of_nat (List.length g))
  end.

(** [avgGap < 10000 ? Math.max(0, 20 - avgGap / 1000) : 0] *)
Definition rhythmBonus (recent : list ActivityEntry) : Q :=
  let avg := avgGap recent in
  if JS.lt avg 10000 then Qmax 0 (20 - avg / 1000) else 0%Q.

(** [recent.at(-1)?.ts || metrics.lastChangeTs || 0] *)
Definition lastActivity (recent : list ActivityEntry) (m : Metrics) : Z :=
  JS.or (JS.orElse (option_map a_ts (JS.at_last recent)) (lastChangeTs m)) 0.

(** [Math.min(50, idleTime / 1000)]: one point per idle second, at most 50. *)
Definition idleDecay (now : Z) (recent : list ActivityEntry) (m : Metrics) : Q :=
  let idleTime := now - lastActivity recent m in
  Qmin 50 (JS.div idleTime 1000).

(** [30 + aiAcceptRate * 30 - undoPenalty * 10] *)
Definition metricScore (m : Metrics) : Q :=
  let total := Z.max 1 (totalInsertions m) in
  let aiAcceptRate := Qmin 1 (JS.div (aiInsertions m) total) in
  let undoPenalty := Qmin 1 (JS.div (undoCount m) total) in
  (30 + aiAcceptRate * 30 - undoPenalty * 10)%Q.

(** [rawFlow] before the jitter is added. *)
Definition rawFlow (m : Metrics) (act : list ActivityEntry) (now : Z) : Q :=
  let recent := recentOf now act in
  (keystrokeScore now recent + rhythmBonus recent - idleDecay now recent m
   + metricScore m)%Q.

(** [Math.floor(Math.random() * 6 - 3)], commented [// ±3] in the source. *)
Definition jitter (rnd : Q) : Z := JS.Math_floor (rnd * 6 - 3).

(** [Math.max(0, Math.min(100, Math.round(rawFlow)))] *)
Definition clampRound (raw : Q) : Z := Z.max 0 (Z.min 100 (JS.Math_round raw)).

(** The score as a function of everything [computeFlow] reads. *)
Definition flowScore (m : Metrics) (act : list ActivityEntry) (now : Z) (rnd : Q) : Z :=
  clampRound (rawFlow m act now + inject_Z (jitter rnd)).

(** [computeFlow] and [updateStatus], written over the score function
    [score]; the program's own are the instances at [flowScore] that
    follow the section.  Proofs about the control flow of [updateStatus]
    are carried out once, for any [score]. *)
Section Scoring.

Variable host : Host.
Variable score : Metrics -> list ActivityEntry -> Z -> Q -> Z.

Definition computeFlowWith : M Z :=
  now <- Date_now host ;;
  s <- get ;;
  rnd <- Math_random host ;;
  ret (score (metrics s) (activity s) now rnd).

(** [updateStatus].  The function returns nothing; the model returns the
    local [flow] when the call scored ([None] for the throttled early
    return), so that statements can speak of "a tick that produced
    score f". *)
Definition updateStatusWith : M (option Z) :=
  now <- Date_now host ;;
  s <- get ;;
  if now - lastUpdate s <? 1000 then ret None
  else
    put (set_lastUpdate now s) ;;
    flow <- computeFlowWith ;;
    s <- get ;;
    put (set_statusBar (mkStatusBar (Some flow) (sb_color (statusBar s))) s) ;;
    (if flow >=? 70 then
       s <- get ;;
       put (set_statusBar (mkStatusBar (sb_flow (statusBar s)) None) s) ;;
       update_metrics (set_consecutiveLow 0)
     else if flow >=? 45 then
       s <- get ;;
       put (set_statusBar (mkStatusBar (sb_flow (statusBar s)) (Some "#b36b00"%string)) s) ;;
       update_metrics (set_consecutiveLow 0)
     else
       s <- get ;;
       put (set_statusBar (mkStatusBar (sb_flow (statusBar s)) (Some "#a80000"%string)) s) ;;
       update_metrics (fun m => set_consecutiveLow (consecutiveLow m + 1) m)) ;;
    s <- get ;;
    (if assistMode s && (consecutiveLow (metrics s) >=? 5) then
       update_metrics (set_consecutiveLow 0) ;;
       showInformationMessage (p_message nudgePrompt) (p_items nudgePrompt)
     else ret tt) ;;
    s <- get ;;
    put (set_history (pushHistory (mkSample now flow) (history s)) s) ;;
    ret (Some flow).

End Scoring.

Definition computeFlow (host : Host) : M Z := computeFlowWith host flowScore.

Definition updateStatus (host : Host) : M (option Z) :=
  updateStatusWith host flowScore.

Section Handlers.

Variable host : Host.

(** [while (activity.length && activity[0].ts < cutoff) activity.shift();] *)
Fixpoint pruneOld (cutoff : Z) (act : list ActivityEntry) : list ActivityEntry :=
  match act with
  | [] => []
  | a :: r => if a_ts a <? cutoff then pruneOld cutoff r else act
  end.

(** The body of [for (const change of e.contentChanges) { ... }], with
    [inserted = change.text?.length || 0] and
    [removed = change.rangeLength || 0]. *)
Definition handleChange (now : Z) (change : Change) : M unit :=
  let inserted := JS.or (JS.length (text change)) 0 in
  let removed := JS.or (rangeLength change) 0 in
  (if inserted >? 0 then
     s <- get ;; put (set_activity (activity s ++ [mkActivity now inserted]) s)
   else ret tt) ;;
  let cutoff := now - 5 * 60 * 1000 in
  s <- get ;;
  put (set_activity (pruneOld cutoff (activity s)) s) ;;
  if (inserted >? 0) && (removed =? 0) then
    update_metrics (fun m => set_totalInsertions (totalInsertions m + inserted) m) ;;
    if (inserted >? 40) || JS.includes_newline (text change) then
      update_metrics (fun m => set_aiInsertions (aiInsertions m + 1) m) ;;
      logEvent host (ev_ai_accept inserted)
    else
      logEvent host (ev_insert inserted)
  else if (removed >? 0) && (inserted =? 0) then
    update_metrics (fun m => set_totalDeletions (totalDeletions m + removed) m) ;;
    update_metrics (fun m => set_undoCount (undoCount m + 1) m) ;;
    logEvent host (ev_delete removed)
  else if (removed >? 0) && (inserted >? 0) then
    update_metrics (fun m => set_totalInsertions (totalInsertions m + inserted) m) ;;
    update_metrics (fun m => set_totalDeletions (totalDeletions m + removed) m) ;;
    if (inserted >? 40) || JS.includes_newline (text change) then
      update_metrics (fun m => set_aiInsertions (aiInsertions m + 1) m) ;;
      logEvent host (ev_ai_replace inserted removed)
    else
      logEvent host (ev_replace inserted removed)
  else ret tt.

Fixpoint forEachChange (now : Z) (changes : list Change) : M unit :=
  match changes with
  | [] => ret tt
  | c :: r => handleChange now c ;; forEachChange now r
  end.

(** The [onDidChangeTextDocument] listener. *)
Definition onDidChangeTextDocument (contentChanges : list Change) : M (option Z) :=
  now <- Date_now host ;;
  update_metrics (set_lastChangeTs now) ;;
  forEachChange now contentChanges ;;
  updateStatus host.

(** The [onDidChangeWindowState] listener. *)
Definition onDidChangeWindowState (focused : bool) : M (option Z) :=
  (if negb focused then
     now <- Date_now host ;;
     update_metrics (set_lastChangeTs (now - 120000))
   else ret tt) ;;
  updateStatus host.

(** The [vibeflow.logAIReject] command. *)
Definition logAIReject : M unit :=
  update_metrics (fun m => set_aiRejections (aiRejections m + 1) m) ;;
  logEvent host ev_ai_reject ;;
  showInformationMessage "VibeFlow: AI rejection logged." [].

End Handlers.

End Windowed.

(** ** The simplified variant ([src/extension.js]) *)

Module Demo.

(** Everything of [raw] but the jitter.  The divisor of [rejectPenalty]
    is at least 1 for the non-negative counters the program maintains. *)
Definition rawFlow (m : Metrics) (now : Z) : Q :=
  let total := Z.max 1 (totalInsertions m) in
  let acceptRate := Qmin 1 (JS.div (aiInsertions m) total) in
  let rejectPenalty :=
    Qmin 1 (JS.div (aiRejections m) (aiInsertions m + aiRejections m + 1)) in
  let undoRate := Qmin 1 (JS.div (undoCount m) total) in
  let idleSec := JS.div (now - lastChangeTs m) 1000 in
  let idleFactor := Qmin 1 (idleSec / 300) in
  (30 + acceptRate * 50 - undoRate * 10 - idleFactor * 10 - rejectPenalty * 5)%Q.

(** [Math.floor(Math.random() * 10 - 5)] *)
Definition jitter (rnd : Q) : Z := JS.Math_floor (rnd * 10 - 5).

Definition clampRound (raw : Q) : Z := Z.max 0 (Z.min 100 (JS.Math_round raw)).

Definition flowScore (m : Metrics) (now : Z) (rnd : Q) : Z :=
  clampRound (rawFlow m now + inject_Z (jitter rnd)).

(** As in the windowed variant, [computeFlow] and [updateStatus] are
    written over the score function and instantiated after the section. *)
Section Scoring.

Variable host : Host.
Variable score : Metrics -> Z -> Q -> Z.

Definition computeFlowWith : M Z :=
  s <- get ;;
  now <- Date_now host ;;
  rnd <- Math_random host ;;
  ret (score (metrics s) now rnd).

(** [updateStatus]; the model returns the local [flow] of a call that
    scored.  The [try { ... } catch (e) {}] around the colouring guards
    assignments that cannot throw. *)
Definition updateStatusWith : M (option Z) :=
  now <- Date_now host ;;
  s <- get ;;
  if now - lastUpdate s <? 1000 then ret None
  else
    put (set_lastUpdate now s) ;;
    flow <- computeFlowWith ;;
    s <- get ;;
    put (set_statusBar (mkStatusBar (Some flow) (sb_color (statusBar s))) s) ;;
    (if flow >=? 70 then
       s <- get ;;
       put (set_statusBar (mkStatusBar (sb_flow (statusBar s)) None) s) ;;
       update_metrics (set_consecutiveLow 0)
     else if flow >=? 40 then
       s <- get ;;
       put (set_statusBar (mkStatusBar (sb_flow (statusBar s)) (Some "#b36b00"%string)) s) ;;
       update_metrics (set_consecutiveLow 0)
     else
       s <- get ;;
       put (set_statusBar (mkStatusBar (sb_flow (statusBar s)) (Some "#a80000"%string)) s) ;;
       update_metrics (fun m => set_consecutiveLow (consecutiveLow m + 1) m)) ;;
    s <- get ;;
    put (set_history (pushHistory (mkSample now flow) (history s)) s) ;;
    s <- get ;;
    (if assistMode s && (consecutiveLow (metrics s) >=? 5) then
       update_metrics (set_consecutiveLow 0) ;;
       showInformationMessage (p_message nudgePrompt) (p_items nudgePrompt)
     else ret tt) ;;
    ret (Some flow).

End Scoring.

Definition computeFlow (host : Host) : M Z := computeFlowWith host flowScore.

Definition updateStatus (host : Host) : M (option Z) :=
  updateStatusWith host flowScore.

Section Handlers.

Variable host : Host.

(** The body of [for (const change of e.contentChanges) { ... }].  On a
    string [change.text ? change.text.length : 0] is its length (the empty
    string is falsy and has length 0), and
    [change.text && change.text.includes("\n")] is the newline test. *)
Definition handleChange (change : Change) : M unit :=
  let inserted := JS.length (text change) in
  let removed := JS.or (rangeLength change) 0 in
  if (inserted >? 0) && (removed =? 0) then
    update_metrics (fun m => set_totalInsertions (totalInsertions m + inserted) m) ;;
    if (inserted >? 40) || JS.includes_newline (text change) then
      update_metrics (fun m => set_aiInsertions (aiInsertions m + 1) m) ;;
      logEvent host (ev_ai_accept inserted)
    else
      logEvent host (ev_insert inserted)
  else if (removed >? 0) && (inserted =? 0) then
    update_metrics (fun m => set_totalDeletions (totalDeletions m + removed) m) ;;
    update_metrics (fun m => set_undoCount (undoCount m + 1) m) ;;
    logEvent host (ev_delete removed)
  else if (removed >? 0) && (inserted >? 0) then
    update_metrics (fun m => set_totalInsertions (totalInsertions m + inserted) m) ;;
    update_metrics (fun m => set_totalDeletions (totalDeletions m + removed) m) ;;
    if (inserted >? 40) || JS.includes_newline (text change) then
      update_metrics (fun m => set_aiInsertions (aiInsertions m + 1) m) ;;
      logEvent host (ev_ai_replace inserted removed)
    else
      logEvent host (ev_replace inserted removed)
  else ret tt.

Fixpoint forEachChange (changes : list Change) : M unit :=
  match changes with
  | [] => ret tt
  | c :: r => handleChange c ;; forEachChange r
  end.

(** The [onDidChangeTextDocument] listener. *)
Definition onDidChangeTextDocument (contentChanges : list Change) : M (option Z) :=
  now <- Date_now host ;;
  update_metrics (set_lastChangeTs now) ;;
  forEachChange contentChanges ;;
  updateStatus host.

(** The [onDidChangeWindowState] listener. *)
Definition onDidChangeWindowState (focused : bool) : M (option Z) :=
  if negb focused then
    now <- Date_now host ;;
    update_metrics (set_lastChangeTs (now - 120000)) ;;
    updateStatus host
  else ret None.

End Handlers.

End Demo.

(** The [vibeflow.toggleAssist] command (the [globalState.update] it awaits
    persists the flag). *)
Definition toggleAssist (host : Host) : M unit :=
  s <- get ;;
  put (set_assistMode (negb (assistMode s)) s) ;;
  s <- get ;;
  showInformationMessage
    ("VibeFlow: Assist mode "
       ++ (if assistMode s then "enabled" else "disabled") ++ ".")%string [] ;;
  logEvent host (ev_assist_toggle (assistMode s)).

(** The scores are kept folded during simplification; they are unfolded
    by name where a proof looks inside. *)
Arguments Windowed.flowScore : simpl never.
Arguments Demo.flowScore : simpl never.
Arguments pushHistory : simpl never.

(** ** Specification-level notions *)

(** Between two scoring ticks other handlers may run (edits, throttled
    calls of [updateStatus], manual rejections).  All that matters to the
    nudge state machine is that they leave its three variables alone. *)
Definition sameNudgeState (a b : State) : Prop :=
  consecutiveLow (metrics a) = consecutiveLow (metrics b)
  /\ assistMode a = assistMode b
  /\ shown a = shown b.

(** [lowRun step n st st']: [n] successive scoring ticks of [step], each
    producing a score below [threshold], lead from [st] to [st']. *)
Inductive lowRun (step : M (option Z)) (threshold : Z) : nat -> State -> State -> Prop :=
| lowRun_nil : forall st, lowRun step threshold 0 st st
| lowRun_tick : forall n st0 st1 st2 st3 f,
    lowRun step threshold n st0 st1 ->
    sameNudgeState st1 st2 ->
    runState step st2 = (Some f, st3) ->
    f < threshold ->
    lowRun step threshold (S n) st0 st3.

(** The deletion rule as the specification's test list words it: a pure
    deletion logs [delete] and adds the removed length to [undoCount]. *)
Definition deletionAddsLength (handle : Change -> M unit) (st : State) (c : Change) : Prop :=
  let st' := execState (handle c) st in
  (exists ts, events st' = events st ++ [mkEvent (ev_delete (rangeLength c)) ts])
  /\ undoCount (metrics st') = undoCount (metrics st) + rangeLength c.

(** "No ActivityEntry is appended": every entry of the window afterwards
    was in it before. *)
Definition nothingAppended (handle : Change -> M unit) (st : State) (c : Change) : Prop :=
  forall e, In e (activity (execState (handle c) st)) -> In e (activity st).

(** Two clock readings fall into the same one-second interval. *)
Definition sameSecond (t1 t2 : Z) : Prop := t1 / 1000 = t2 / 1000.

(** The value [k] is one the noise function [f] can produce from a draw of
    [Math.random()], which lies in [[0,1)]. *)
Definition attains (f : Q -> Z) (k : Z) : Prop :=
  exists u : Q, (0 <= u)%Q /\ (u < 1)%Q /\ f u = k.

(** A noise distribution symmetric about 0 produces [-k] whenever it
    produces [k]. *)
Definition symmetricSupport (f : Q -> Z) : Prop :=
  forall k, attains f k -> attains f (- k).

(** ** Sample inputs *)

(** A host whose clock advances one second per reading and whose random
    source always returns [0.5], for which both jitters are [0]. *)
Definition steadyHost : Host :=
  mkHost (fun k => 100000 + 1000 * Z.of_nat k) (fun _ => 1 # 2).

(** A host whose clock stands at [t]. *)
Definition frozenHost (t : Z) : Host := mkHost (fun _ => t) (fun _ => 1 # 2).

(** The state right after activation at time [t], before the first tick. *)
Definition freshState (t : Z) (assist : bool) : State :=
  mkState' (mkMetrics t 0 0 0 0 0 0) [] [] [] assist 0 (mkStatusBar None None) [] 0 0.

(** The metrics of the specification's end-to-end example. *)
Definition exampleMetrics (now : Z) : Metrics := mkMetrics now 100 0 80 0 5 0.

Definition exampleState (now : Z) : State :=
  set_metrics (exampleMetrics now) (freshState now false).

(** A history filled to its cap. *)
Definition fullHistory : list FlowSample :=
  repeat (mkSample 0 50) (Z.to_nat 20000).

(** ** The dashboard snapshot *)



(** ** Notions for the properties of whole batches and sessions *)

(** The object a sub-change is logged as, if it is logged: the branches of
    the loop body, without their effects. *)
Definition eventOf (c : Change) : option EventBody :=
  let inserted := JS.length (text c) in
  let removed := rangeLength c in
  let ai := (inserted >? 40) || JS.includes_newline (text c) in
  if (inserted >? 0) && (removed =? 0) then
    Some (if ai then ev_ai_accept inserted else ev_insert inserted)
  else if (removed >? 0) && (inserted =? 0) then
    Some (ev_delete removed)
  else if (removed >? 0) && (inserted >? 0) then
    Some (if ai then ev_ai_replace inserted removed else ev_replace inserted removed)
  else None.

Definition bodiesOf (changes : list Change) : list EventBody :=
  flat_map (fun c => match eventOf c with Some b => [b] | None => [] end) changes.

(** The objects [bodies] as [logEvent] stamps them, one clock reading each,
    from the [k]-th reading on. *)
Fixpoint stamp (host : Host) (k : nat) (bodies : list EventBody) : list Event :=
  match bodies with
  | [] => []
  | b :: r => mkEvent b (clock host k) :: stamp host (S k) r
  end.

(** Characters inserted and removed by a batch of sub-changes. *)
Definition insertedTotal (changes : list Change) : Z :=
  fold_right (fun c acc => JS.length (text c) + acc) 0 changes.

Definition removedTotal (changes : list Change) : Z :=
  fold_right (fun c acc => rangeLength c + acc) 0 changes.

(** What the classifier keeps true of the counters. *)
Definition countersConsistent (m : Metrics) : Prop :=
  0 <= aiInsertions m <= totalInsertions m
  /\ 0 <= undoCount m <= totalDeletions m.

(** Successive samples are at least a second apart. *)
Fixpoint spaced (l : list FlowSample) : Prop :=
  match l with
  | [] => True
  | a :: r =>
      match r with
      | [] => True
      | b :: _ => h_ts a + 1000 <= h_ts b
      end /\ spaced r
  end.

(** The samples of this session: spaced, none later than the last tick. *)
Definition historyPaced (st : State) : Prop :=
  spaced (history st)
  /\ Forall (fun smp => h_ts smp <= lastUpdate st) (history st).

(** The window is in arrival order and holds nothing before [lo] or after
    [hi]. *)
Definition windowWithin (lo hi : Z) (act : list ActivityEntry) : Prop :=
  StronglySorted (fun a b => a_ts a <= a_ts b) act
  /\ Forall (fun a => lo <= a_ts a <= hi) act.

(** The state in which the listener starts its loop: the clock read once,
    [lastChangeTs] set to the reading. *)
Definition touched (h : Host) (st : State) : State :=
  set_metrics (set_lastChangeTs (clock h (clockReads st)) (metrics st))
              (set_clockReads (S (clockReads st)) st).

(** The action recorded for the answer to a nudge, by string comparison. *)
Definition nudgeActionOf (choice : option string) : string :=
  match choice with
  | Some c =>
      if String.eqb c "Take Break" then "break"
      else if String.eqb c "Request Hint" then "hint"
      else "ignored"
  | None => "ignored"
  end.

(** The message that follows the answer, if any. *)
Definition nudgeFollowUp (action : string) : list Prompt :=
  if String.eqb action "break" then
    [mkPrompt "Take a 2-minute break. Step away and stretch." []]
  else if String.eqb action "hint" then
    [mkPrompt "Hint: isolate the problem; add logs or write a failing test." []]
  else [].

(** Everything of the metrics but [consecutiveLow]. *)
Definition counters (m : Metrics) : Metrics := set_consecutiveLow 0 m.

(** ** Facts about the primitives *)

Lemma Math_round_comp (x y : Q) : x == y -> JS.Math_round x = JS.Math_round y.
Proof.
  intros E. unfold JS.Math_round. apply Qfloor_comp. rewrite E. reflexivity.
Qed.

Lemma floor_bounds (x : Q) (lo hi : Z) :
  (inject_Z lo <= x)%Q -> (x < inject_Z hi)%Q -> lo <= Qfloor x < hi.
Proof.
  intros Hlo Hhi. split.
  - rewrite <- (Qfloor_Z lo). now apply Qfloor_resp_le.
  - rewrite Zlt_Qlt. eapply Qle_lt_trans; [apply Qfloor_le | exact Hhi].
Qed.

Lemma floor_unique (x : Q) (k : Z) :
  (inject_Z k <= x)%Q -> (x < inject_Z (k + 1))%Q -> Qfloor x = k.
Proof.
  intros Hlo Hhi. pose proof (floor_bounds x k (k + 1) Hlo Hhi). lia.
Qed.

Lemma pruneOld_keeps_new (cutoff now size : Z) (act : list ActivityEntry) :
  cutoff <= now ->
  Windowed.pruneOld cutoff (act ++ [mkActivity now size])
  = Windowed.pruneOld cutoff act ++ [mkActivity now size].
Proof.
  intros Hc. induction act as [|a r IH]; simpl.
  - destruct (Z.ltb_spec now cutoff); [lia | reflexivity].
  - destruct (a_ts a <? cutoff); [exact IH | reflexivity].
Qed.

Lemma pruneOld_incl (cutoff : Z) (act : list ActivityEntry) :
  incl (Windowed.pruneOld cutoff act) act.
Proof.
  induction act as [|a r IH]; simpl.
  - apply incl_refl.
  - destruct (a_ts a <? cutoff).
    + now apply incl_tl.
    + apply incl_refl.
Qed.

(** ** The flow score *)

Lemma windowed_flowScore_range m act now rnd :
  0 <= Windowed.flowScore m act now rnd <= 100.
Proof.
  unfold Windowed.flowScore.
  generalize (Windowed.rawFlow m act now + inject_Z (Windowed.jitter rnd))%Q.
  intros x. unfold Windowed.clampRound. lia.
Qed.

Lemma demo_flowScore_range m now rnd :
  0 <= Demo.flowScore m now rnd <= 100.
Proof.
  unfold Demo.flowScore.
  generalize (Demo.rawFlow m now + inject_Z (Demo.jitter rnd))%Q.
  intros x. unfold Demo.clampRound. lia.
Qed.

(** What [computeFlow] returns: the score at the next clock reading and the
    next random draw. *)
Lemma windowed_computeFlow_value (h : Host) (st : State) :
  evalState (Windowed.computeFlow h) st
  = Windowed.flowScore (metrics st) (activity st)
      (clock h (clockReads st)) (random h (randomDraws st)).
Proof. reflexivity. Qed.

Lemma demo_computeFlow_value (h : Host) (st : State) :
  evalState (Demo.computeFlow h) st
  = Demo.flowScore (metrics st) (clock h (clockReads st))
      (random h (randomDraws st)).
Proof. reflexivity. Qed.

(** C1. For every metrics state, activity window, clock reading and draw of
    the random source, the flow score is an integer between 0 and 100, in
    the windowed variant and in the simplified one, both as the function of
    its inputs and as returned by [computeFlow] in any program state. *)
Theorem flow_score_within_0_100 :
  forall (h : Host) (st : State) (m : Metrics) (act : list ActivityEntry)
         (now : Z) (rnd : Q),
    0 <= Windowed.flowScore m act now rnd <= 100
    /\ 0 <= evalState (Windowed.computeFlow h) st <= 100
    /\ 0 <= Demo.flowScore m now rnd <= 100
    /\ 0 <= evalState (Demo.computeFlow h) st <= 100.
Proof.
  intros h st m act now rnd.
  rewrite windowed_computeFlow_value, demo_computeFlow_value.
  split; [apply windowed_flowScore_range|].
  split; [apply windowed_flowScore_range|].
  split; apply demo_flowScore_range.
Qed.

(** C10. The windowed scorer never reads [aiRejections]: changing that
    counter alone, with the same window, clock and random draw, leaves the
    score unchanged, for the pure score and for [computeFlow]. *)
Theorem windowed_score_ignores_aiRejections :
  forall (h : Host) (st : State) (m : Metrics) (act : list ActivityEntry)
         (now : Z) (rnd : Q) (r : Z),
    Windowed.flowScore (set_aiRejections r m) act now rnd
    = Windowed.flowScore m act now rnd
    /\ evalState (Windowed.computeFlow h)
                 (set_metrics (set_aiRejections r (metrics st)) st)
       = evalState (Windowed.computeFlow h) st.
Proof.
  intros h st m act now rnd r.
  assert (E : forall m', Windowed.flowScore (set_aiRejections r m') act now rnd
                         = Windowed.flowScore m' act now rnd).
  { intros m'.
    unfold Windowed.flowScore, Windowed.rawFlow, Windowed.idleDecay,
      Windowed.lastActivity, Windowed.metricScore.
    cbn [set_aiRejections lastChangeTs totalInsertions aiInsertions undoCount].
    reflexivity. }
  split; [apply E|].
  rewrite !windowed_computeFlow_value.
  cbn [set_metrics metrics activity clockReads randomDraws].
  generalize (clock h (clockReads st)), (random h (randomDraws st)).
  intros now' rnd'.
  unfold Windowed.flowScore, Windowed.rawFlow, Windowed.idleDecay,
    Windowed.lastActivity, Windowed.metricScore.
  cbn [set_aiRejections lastChangeTs totalInsertions aiInsertions undoCount].
  reflexivity.
Qed.

(** The simplified variant does read it: one logged rejection on otherwise
    blank metrics lowers the score from 30 to 28. *)
Lemma demo_score_depends_on_aiRejections :
  Demo.flowScore (mkMetrics 0 0 0 0 0 0 0) 0 (1 # 2) = 30
  /\ Demo.flowScore (mkMetrics 0 0 0 0 1 0 0) 0 (1 # 2) = 28.
Proof. split; vm_compute; reflexivity. Qed.

(** ** The jitter *)

Lemma windowed_jitter_range (rnd : Q) :
  (0 <= rnd)%Q -> (rnd < 1)%Q -> -3 <= Windowed.jitter rnd <= 2.
Proof.
  intros H0 H1. unfold Windowed.jitter, JS.Math_floor.
  assert (-3 <= Qfloor (rnd * 6 - 3) < 3).
  { apply floor_bounds; cbv [inject_Z]; lra. }
  lia.
Qed.

(** Under a uniform draw each of the six values -3, ..., 2 comes from an
    interval of length 1/6: the noise has mean -1/2. *)
Lemma windowed_jitter_level_set (rnd : Q) (k : Z) :
  Windowed.jitter rnd = k
  <-> ((inject_Z k + 3) / 6 <= rnd /\ rnd < (inject_Z k + 4) / 6)%Q.
Proof.
  unfold Windowed.jitter, JS.Math_floor. split.
  - intros E.
    pose proof (Qfloor_le (rnd * 6 - 3)) as Hlo.
    pose proof (Qlt_floor (rnd * 6 - 3)) as Hhi.
    rewrite E in Hlo, Hhi. rewrite inject_Z_plus in Hhi.
    change (inject_Z 1) with 1%Q in Hhi.
    revert Hlo Hhi. generalize (inject_Z k). intros q Hlo Hhi.
    unfold Qdiv. change (/ 6)%Q with (1 # 6)%Q. split; lra.
  - unfold Qdiv. change (/ 6)%Q with (1 # 6)%Q.
    intros [Hlo Hhi]. apply floor_unique.
    + lra.
    + rewrite inject_Z_plus. change (inject_Z 1) with 1%Q. lra.
Qed.

Lemma demo_jitter_range (rnd : Q) :
  (0 <= rnd)%Q -> (rnd < 1)%Q -> -5 <= Demo.jitter rnd <= 4.
Proof.
  intros H0 H1. unfold Demo.jitter, JS.Math_floor.
  assert (-5 <= Qfloor (rnd * 10 - 5) < 5).
  { apply floor_bounds; cbv [inject_Z]; lra. }
  lia.
Qed.

(** C7. The noise [Math.floor(Math.random() * 6 - 3)] stays within the
    stated bound of 3 in absolute value, but it is not symmetric: a draw
    of 0 gives -3 while no draw in [[0,1)] gives +3.  The values are
    -3, ..., 2, not -3, ..., 3. *)
Theorem windowed_jitter_not_symmetric :
  attains Windowed.jitter (-3)
  /\ ~ attains Windowed.jitter 3
  /\ ~ symmetricSupport Windowed.jitter.
Proof.
  assert (Hm : attains Windowed.jitter (-3)).
  { exists 0%Q. repeat split; try reflexivity. discriminate. }
  assert (Hp : ~ attains Windowed.jitter 3).
  { intros (u & H0 & H1 & E).
    pose proof (windowed_jitter_range u H0 H1). lia. }
  repeat split; auto.
  intros Hsym. apply Hp. exact (Hsym (-3) Hm).
Qed.

(** The simplified variant draws from -5, ..., 4: its noise exceeds 3 in
    absolute value and is skewed in the same way. *)
Lemma demo_jitter_not_symmetric :
  attains Demo.jitter (-5) /\ ~ attains Demo.jitter 5.
Proof.
  split.
  - exists 0%Q. repeat split; try reflexivity. discriminate.
  - intros (u & H0 & H1 & E).
    pose proof (demo_jitter_range u H0 H1). lia.
Qed.

(** ** The end-to-end example *)

Lemma lastActivity_empty_window (now : Z) (m : Metrics) :
  lastChangeTs m = now -> now - Windowed.lastActivity [] m = 0.
Proof.
  intros E. unfold Windowed.lastActivity, JS.at_last, JS.orElse, JS.or.
  simpl. rewrite E.
  destruct (Z.eqb_spec now 0) as [E0|E0]; simpl.
  - lia.
  - destruct (Z.eqb_spec now 0); lia.
Qed.

(** With an empty window [gaps] is empty, [avgGap] is 0 by its guard
    [gaps.length ? ... : 0], and the rhythm bonus is the full 20. *)
Lemma rhythmBonus_empty_window : (Windowed.rhythmBonus [] == 20)%Q.
Proof. reflexivity. Qed.

(** C3, as stated, fails: with the jitter at 0 (a draw of 0.5), the
    specification's example metrics and an empty window score 74, not 54,
    both as the score function and through [computeFlow]. *)
Lemma example_score_is_not_54 :
  Windowed.jitter (1 # 2) = 0
  /\ Windowed.flowScore (exampleMetrics 1700000000000) [] 1700000000000 (1 # 2) <> 54
  /\ evalState (Windowed.computeFlow (frozenHost 1700000000000))
               (exampleState 1700000000000) <> 54.
Proof. repeat split; vm_compute; discriminate. Qed.

(** The four terms of the raw score on the example metrics. *)
Lemma example_terms (now deletions rejections low : Z) :
  let m := mkMetrics now 100 deletions 80 rejections 5 low in
  let recent := Windowed.recentOf now [] in
  (Windowed.metricScore m == 107 # 2)%Q
  /\ (Windowed.keystrokeScore now recent == 0)%Q
  /\ (Windowed.idleDecay now recent m == 0)%Q
  /\ (Windowed.rhythmBonus recent == 20)%Q
  /\ (Windowed.rawFlow m [] now == 147 # 2)%Q.
Proof.
  intros m recent.
  assert (Hidle : (Windowed.idleDecay now recent m == 0)%Q).
  { unfold Windowed.idleDecay, recent. simpl Windowed.recentOf.
    rewrite (lastActivity_empty_window now m eq_refl). reflexivity. }
  repeat split; try reflexivity; try assumption.
  unfold Windowed.rawFlow. fold recent. rewrite Hidle. reflexivity.
Qed.

(** C3, amended. With the jitter at 0, metrics
    [{totalInsertions: 100, aiInsertions: 80, undoCount: 5, lastChangeTs: now}]
    (whatever the other counters) and an empty window at time [now], the
    outcome term is 53.5, the keystroke term 0, the idle penalty 0 and the
    rhythm bonus 20, so the raw score is 73.5 and the flow score is exactly
    74. *)
Theorem example_score_is_74 :
  forall (now : Z) (rnd : Q) (deletions rejections low : Z),
    Windowed.jitter rnd = 0 ->
    let m := mkMetrics now 100 deletions 80 rejections 5 low in
    let recent := Windowed.recentOf now [] in
    (Windowed.metricScore m == 107 # 2)%Q
    /\ (Windowed.keystrokeScore now recent == 0)%Q
    /\ (Windowed.idleDecay now recent m == 0)%Q
    /\ (Windowed.rhythmBonus recent == 20)%Q
    /\ (Windowed.rawFlow m [] now == 147 # 2)%Q
    /\ Windowed.flowScore m [] now rnd = 74.
Proof.
  intros now rnd deletions rejections low Hj m recent.
  destruct (example_terms now deletions rejections low)
    as (Hm & Hk & Hi & Hr & Hraw).
  repeat split; try assumption.
  unfold Windowed.flowScore, Windowed.clampRound.
  rewrite Hj.
  rewrite (Math_round_comp _ (147 # 2)).
  - reflexivity.
  - change (inject_Z 0) with 0%Q. rewrite Qplus_0_r. exact Hraw.
Qed.

(** The amended statement at the clock reading of the counterexample. *)
Lemma example_score_is_74_witness :
  Windowed.flowScore (mkMetrics 1700000000000 100 0 80 0 5 0) []
                     1700000000000 (1 # 2) = 74.
Proof.
  apply (example_score_is_74 1700000000000 (1 # 2) 0 0 0).
  vm_compute. reflexivity.
Defined.

(** Whatever the draw, the example scores between 71 and 76 in the windowed
    variant: no draw gives 54. *)
Lemma example_score_any_draw (now : Z) (rnd : Q) :
  (0 <= rnd)%Q -> (rnd < 1)%Q ->
  71 <= Windowed.flowScore (exampleMetrics now) [] now rnd <= 76.
Proof.
  intros H0 H1.
  pose proof (windowed_jitter_range rnd H0 H1) as Hj.
  destruct (example_terms now 0 0 0) as (_ & _ & _ & _ & Hraw).
  unfold Windowed.flowScore, Windowed.clampRound, exampleMetrics.
  rewrite (Math_round_comp _ (inject_Z (74 + Windowed.jitter rnd) - (1 # 2))).
  - unfold JS.Math_round.
    rewrite (Qfloor_comp _ (inject_Z (74 + Windowed.jitter rnd))).
    + rewrite Qfloor_Z. lia.
    + ring.
  - rewrite Hraw. rewrite inject_Z_plus. change (inject_Z 74) with 74%Q. ring.
Qed.

(** In the simplified variant the same metrics score 70. *)
Lemma example_score_demo :
  Demo.flowScore (exampleMetrics 1700000000000) 1700000000000 (1 # 2) = 70.
Proof. vm_compute. reflexivity. Qed.

(** ** The edit classifier *)

Lemma JS_length_pos (s : string) : s <> ""%string -> 0 < JS.length s.
Proof.
  destruct s; [congruence|]. intros _.
  unfold JS.length. simpl String.length. lia.
Qed.

Lemma JS_or_0 (x : Z) : JS.or x 0 = x.
Proof. unfold JS.or. destruct (Z.eqb_spec x 0); congruence. Qed.

(** Rewrites the tests of [handleChange] once the signs of [inserted] and
    [removed] are known. *)
Ltac decide_tests :=
  repeat match goal with
  | |- context [?a >? ?b] =>
      first [ replace (a >? b) with true by (symmetry; apply Z.gtb_lt; lia)
            | replace (a >? b) with false
                by (symmetry; rewrite Z.gtb_ltb; apply Z.ltb_ge; lia) ]
  | |- context [?a =? ?b] =>
      first [ replace (a =? b) with true by (symmetry; apply Z.eqb_eq; lia)
            | replace (a =? b) with false by (symmetry; apply Z.eqb_neq; lia) ]
  end.

(** C2. A pure insertion (some text inserted, nothing removed) is logged as
    one event: [ai.accept], with [aiInsertions] incremented, when the text
    is longer than 40 or contains a newline, and [insert], with
    [aiInsertions] untouched, otherwise.  Both variants agree. *)
Theorem pure_insertion_classified :
  forall (h : Host) (now : Z) (st : State) (c : Change),
    text c <> ""%string ->
    rangeLength c = 0 ->
    let n := JS.length (text c) in
    let ai := (n >? 40) || JS.includes_newline (text c) in
    let body := if ai then ev_ai_accept n else ev_insert n in
    let ts := clock h (clockReads st) in
    let wst := execState (Windowed.handleChange h now c) st in
    let dst := execState (Demo.handleChange h c) st in
    ev_type body = (if ai then "ai.accept" else "insert")%string
    /\ events wst = events st ++ [mkEvent body ts]
    /\ aiInsertions (metrics wst) = aiInsertions (metrics st) + (if ai then 1 else 0)
    /\ events dst = events st ++ [mkEvent body ts]
    /\ aiInsertions (metrics dst) = aiInsertions (metrics st) + (if ai then 1 else 0).
Proof.
  intros h now st c Ht Hr n ai body ts wst dst.
  pose proof (JS_length_pos _ Ht) as Hn. fold n in Hn.
  subst wst dst body.
  unfold Windowed.handleChange, Demo.handleChange, execState.
  rewrite Hr, !JS_or_0. fold n. decide_tests. cbn [andb]. fold ai.
  destruct ai; cbn; repeat split; lia.
Qed.

(** The theorem at a 41-character insertion without newline. *)
Lemma pure_insertion_classified_witness :
  let c := mkChange "aaaaaaaaaaaaaaaaaaaaaaaaaaaaaaaaaaaaaaaaa" 0 in
  let st := freshState 1000 false in
  events (execState (Windowed.handleChange steadyHost 100000 c) st)
  = [mkEvent (ev_ai_accept 41) 100000]
  /\ aiInsertions (metrics (execState (Windowed.handleChange steadyHost 100000 c) st)) = 1.
Proof.
  intros c st.
  destruct (pure_insertion_classified steadyHost 100000 st c) as (_ & He & Ha & _).
  - discriminate.
  - reflexivity.
  - split; [exact He | exact Ha].
Defined.

(** The three cases the specification lists: 41 characters, 10 characters,
    and a short text with a newline. *)
Example classify_41_chars :
  map (fun e => ev_type (ev_body e))
      (events (execState
         (Windowed.handleChange steadyHost 100000
            (mkChange "aaaaaaaaaaaaaaaaaaaaaaaaaaaaaaaaaaaaaaaaa" 0))
         (freshState 1000 false)))
  = ["ai.accept"%string].
Proof. reflexivity. Qed.

Example classify_10_chars :
  map (fun e => ev_type (ev_body e))
      (events (execState
         (Windowed.handleChange steadyHost 100000 (mkChange "aaaaaaaaaa" 0))
         (freshState 1000 false)))
  = ["insert"%string].
Proof. reflexivity. Qed.

Example classify_newline :
  map (fun e => ev_type (ev_body e))
      (events (execState
         (Windowed.handleChange steadyHost 100000
            (mkChange (String "a" (String "010" (String "b" EmptyString))) 0))
         (freshState 1000 false)))
  = ["ai.accept"%string].
Proof. reflexivity. Qed.

(** C4, as stated, fails: deleting three characters raises [undoCount] by
    one, not by three. *)
Lemma deletion_of_three_counts_once :
  ~ deletionAddsLength (Windowed.handleChange steadyHost 100000)
                       (freshState 1000 false) (mkChange "" 3).
Proof. intros [_ H]. vm_compute in H. discriminate. Qed.

(** C4, amended. A pure deletion (no text inserted, [removed > 0]) is
    logged as one [delete] event carrying the removed length, raises
    [undoCount] by exactly one and [totalDeletions] by the removed length.
    Both variants agree. *)
Theorem pure_deletion_classified :
  forall (h : Host) (now : Z) (st : State) (c : Change),
    text c = ""%string ->
    0 < rangeLength c ->
    let r := rangeLength c in
    let ts := clock h (clockReads st) in
    let wst := execState (Windowed.handleChange h now c) st in
    let dst := execState (Demo.handleChange h c) st in
    ev_type (ev_delete r) = "delete"%string
    /\ events wst = events st ++ [mkEvent (ev_delete r) ts]
    /\ undoCount (metrics wst) = undoCount (metrics st) + 1
    /\ totalDeletions (metrics wst) = totalDeletions (metrics st) + r
    /\ events dst = events st ++ [mkEvent (ev_delete r) ts]
    /\ undoCount (metrics dst) = undoCount (metrics st) + 1
    /\ totalDeletions (metrics dst) = totalDeletions (metrics st) + r.
Proof.
  intros h now st c Ht Hr r ts wst dst.
  subst wst dst.
  unfold Windowed.handleChange, Demo.handleChange, execState.
  rewrite Ht, !JS_or_0. fold r. change (JS.length "") with 0.
  decide_tests. cbn. repeat split.
Qed.

(** The amended statement at the deletion of the counterexample. *)
Lemma pure_deletion_classified_witness :
  let st' := execState (Windowed.handleChange steadyHost 100000 (mkChange "" 3))
                       (freshState 1000 false) in
  events st' = [mkEvent (ev_delete 3) 100000]
  /\ undoCount (metrics st') = 1
  /\ totalDeletions (metrics st') = 3.
Proof.
  intros st'.
  destruct (pure_deletion_classified steadyHost 100000 (freshState 1000 false)
              (mkChange "" 3)) as (_ & He & Hu & Hd & _).
  - reflexivity.
  - reflexivity.
  - split; [exact He | split; [exact Hu | exact Hd]].
Defined.

(** ** The activity window *)

(** C8, as stated, fails: a replace (two characters inserted over one
    removed) appends an entry to an empty window. *)
Lemma replace_appends_activity :
  ~ nothingAppended (Windowed.handleChange steadyHost 100000)
                    (freshState 1000 false) (mkChange "ab" 1).
Proof.
  intros H. apply (H (mkActivity 100000 2)). left. reflexivity.
Qed.

(** C8, amended. Processing a sub-change prunes the entries older than
    five minutes from the front of the window and appends one entry
    [{ts: now, size: inserted}] exactly when [inserted > 0], that is for
    pure insertions and for replaces alike; sub-changes that insert nothing
    (pure deletions, empty changes) append none. *)
Theorem activity_appended_iff_text_inserted :
  forall (h : Host) (now : Z) (st : State) (c : Change),
    let n := JS.length (text c) in
    activity (execState (Windowed.handleChange h now c) st)
    = Windowed.pruneOld (now - 300000) (activity st)
      ++ (if n >? 0 then [mkActivity now n] else []).
Proof.
  intros h now st c n.
  unfold Windowed.handleChange, execState.
  rewrite !JS_or_0. fold n.
  destruct (n >? 0) eqn:En, (rangeLength c =? 0) eqn:Er0,
           (rangeLength c >? 0) eqn:Er, (n =? 0) eqn:En0,
           ((n >? 40) || JS.includes_newline (text c)) eqn:Eai;
    cbn; rewrite ?app_nil_r; try reflexivity;
    apply pruneOld_keeps_new; lia.
Qed.

(** Sub-changes that insert nothing leave the window without new entries. *)
Lemma no_text_nothing_appended (h : Host) (now : Z) (st : State) (c : Change) :
  text c = ""%string -> nothingAppended (Windowed.handleChange h now) st c.
Proof.
  intros Ht e He.
  unfold Windowed.handleChange, execState in He.
  rewrite Ht, !JS_or_0 in He. change (JS.length "") with 0 in He.
  destruct (rangeLength c >? 0) eqn:Er; cbn in He;
    exact (pruneOld_incl _ _ e He).
Qed.

(** The simplified variant keeps no activity window at all. *)
Lemma demo_handleChange_activity (h : Host) (st : State) (c : Change) :
  activity (execState (Demo.handleChange h c) st) = activity st.
Proof.
  unfold Demo.handleChange, execState.
  destruct (JS.length (text c) >? 0), (JS.or (rangeLength c) 0 =? 0),
           (JS.or (rangeLength c) 0 >? 0), (JS.length (text c) =? 0),
           ((JS.length (text c) >? 40) || JS.includes_newline (text c));
    reflexivity.
Qed.

(** ** The scoring tick *)

Lemma geb_70_45 (flow : Z) : (flow >=? 70) = true -> (flow >=? 45) = true.
Proof. rewrite !Z.geb_leb, !Z.leb_le. lia. Qed.

Lemma geb_70_40 (flow : Z) : (flow >=? 70) = true -> (flow >=? 40) = true.
Proof. rewrite !Z.geb_leb, !Z.leb_le. lia. Qed.

Section WindowedTick.

Variable h : Host.
Variable score : Metrics -> list ActivityEntry -> Z -> Q -> Z.

(** A call within a second of the last scoring tick only reads the clock. *)
Lemma windowed_tick_throttled (st : State) :
  clock h (clockReads st) - lastUpdate st < 1000 ->
  runState (Windowed.updateStatusWith h score) st
  = (None, set_clockReads (S (clockReads st)) st).
Proof.
  intros Hthr. unfold Windowed.updateStatusWith. cbn.
  replace (clock h (clockReads st) - lastUpdate st <? 1000) with true
    by (symmetry; apply Z.ltb_lt; exact Hthr).
  reflexivity.
Qed.

(** What a scoring tick does. *)
Lemma windowed_tick_scored (st : State) :
  1000 <= clock h (clockReads st) - lastUpdate st ->
  let now := clock h (clockReads st) in
  let flow := score (metrics st) (activity st)
                (clock h (S (clockReads st))) (random h (randomDraws st)) in
  let low := consecutiveLow (metrics st) in
  let fires := negb (flow >=? 45) && assistMode st && (low + 1 >=? 5) in
  let st' := execState (Windowed.updateStatusWith h score) st in
  evalState (Windowed.updateStatusWith h score) st = Some flow
  /\ history st' = pushHistory (mkSample now flow) (history st)
  /\ assistMode st' = assistMode st
  /\ lastUpdate st' = now
  /\ sb_flow (statusBar st') = Some flow
  /\ consecutiveLow (metrics st')
     = (if flow >=? 45 then 0 else if fires then 0 else low + 1)
  /\ shown st' = shown st ++ (if fires then [nudgePrompt] else []).
Proof.
  intros Hgo. cbv zeta.
  unfold evalState, execState, Windowed.updateStatusWith.
  cbn.
  replace (clock h (clockReads st) - lastUpdate st <? 1000) with false
    by (symmetry; apply Z.ltb_ge; exact Hgo).
  cbn.
  generalize (score (metrics st) (activity st)
                (clock h (S (clockReads st))) (random h (randomDraws st))).
  intros flow.
  remember (consecutiveLow (metrics st)) as low eqn:Hlow.
  destruct (flow >=? 70) eqn:E70; cbn.
  - rewrite (geb_70_45 _ E70). cbn. rewrite !andb_false_r. cbn.
    rewrite app_nil_r. repeat split.
  - destruct (flow >=? 45) eqn:E45; cbn.
    + rewrite !andb_false_r. cbn. rewrite app_nil_r. repeat split.
    + rewrite <- Hlow. destruct (assistMode st) eqn:Ea; cbn.
      * destruct (low + 1 >=? 5) eqn:E5; cbn; rewrite ?app_nil_r, ?Ea;
          repeat split.
      * rewrite app_nil_r, ?Ea. repeat split.
Qed.

(** A call that returned a score was not throttled. *)
Lemma windowed_tick_inv (st st' : State) (f : Z) :
  runState (Windowed.updateStatusWith h score) st = (Some f, st') ->
  1000 <= clock h (clockReads st) - lastUpdate st
  /\ st' = execState (Windowed.updateStatusWith h score) st
  /\ evalState (Windowed.updateStatusWith h score) st = Some f.
Proof.
  intros Hrun.
  destruct (Z.lt_ge_cases (clock h (clockReads st) - lastUpdate st) 1000)
    as [Hthr|Hgo].
  - rewrite (windowed_tick_throttled st Hthr) in Hrun. discriminate.
  - unfold execState, evalState. rewrite Hrun. auto.
Qed.

(** The effect of a tick that returned the score [f], in terms of [f]. *)
Lemma windowed_tick_effect (st st' : State) (f : Z) :
  runState (Windowed.updateStatusWith h score) st = (Some f, st') ->
  let now := clock h (clockReads st) in
  let low := consecutiveLow (metrics st) in
  let fires := negb (f >=? 45) && assistMode st && (low + 1 >=? 5) in
  1000 <= now - lastUpdate st
  /\ f = score (metrics st) (activity st)
            (clock h (S (clockReads st))) (random h (randomDraws st))
  /\ history st' = pushHistory (mkSample now f) (history st)
  /\ assistMode st' = assistMode st
  /\ lastUpdate st' = now
  /\ sb_flow (statusBar st') = Some f
  /\ consecutiveLow (metrics st')
     = (if f >=? 45 then 0 else if fires then 0 else low + 1)
  /\ shown st' = shown st ++ (if fires then [nudgePrompt] else []).
Proof.
  intros Hrun. cbv zeta.
  destruct (windowed_tick_inv st st' f Hrun) as (Hgo & Hst & Hev).
  destruct (windowed_tick_scored st Hgo) as (Hf & Hh & Ha & Hl & Hs & Hc & Hp).
  rewrite Hev in Hf. injection Hf as Hf.
  rewrite <- Hf in Hh, Hs, Hc, Hp. rewrite <- Hst in Hh, Ha, Hl, Hs, Hc, Hp.
  repeat split; assumption.
Qed.

(** A call that returned no score changed nothing but the read count. *)
Lemma windowed_tick_none (st st' : State) :
  runState (Windowed.updateStatusWith h score) st = (None, st') ->
  clock h (clockReads st) - lastUpdate st < 1000
  /\ st' = set_clockReads (S (clockReads st)) st.
Proof.
  intros Hrun.
  destruct (Z.lt_ge_cases (clock h (clockReads st) - lastUpdate st) 1000)
    as [Hthr|Hgo].
  - rewrite (windowed_tick_throttled st Hthr) in Hrun.
    injection Hrun as Hrun. auto.
  - destruct (windowed_tick_scored st Hgo) as (Hf & _).
    unfold evalState in Hf. rewrite Hrun in Hf. discriminate.
Qed.

End WindowedTick.

Section DemoTick.

Variable h : Host.
Variable score : Metrics -> Z -> Q -> Z.

Lemma demo_tick_throttled (st : State) :
  clock h (clockReads st) - lastUpdate st < 1000 ->
  runState (Demo.updateStatusWith h score) st
  = (None, set_clockReads (S (clockReads st)) st).
Proof.
  intros Hthr. unfold Demo.updateStatusWith. cbn.
  replace (clock h (clockReads st) - lastUpdate st <? 1000) with true
    by (symmetry; apply Z.ltb_lt; exact Hthr).
  reflexivity.
Qed.

(** The same tick with the mid threshold at 40. *)
Lemma demo_tick_scored (st : State) :
  1000 <= clock h (clockReads st) - lastUpdate st ->
  let now := clock h (clockReads st) in
  let flow := score (metrics st) (clock h (S (clockReads st)))
                (random h (randomDraws st)) in
  let low := consecutiveLow (metrics st) in
  let fires := negb (flow >=? 40) && assistMode st && (low + 1 >=? 5) in
  let st' := execState (Demo.updateStatusWith h score) st in
  evalState (Demo.updateStatusWith h score) st = Some flow
  /\ history st' = pushHistory (mkSample now flow) (history st)
  /\ assistMode st' = assistMode st
  /\ lastUpdate st' = now
  /\ sb_flow (statusBar st') = Some flow
  /\ consecutiveLow (metrics st')
     = (if flow >=? 40 then 0 else if fires then 0 else low + 1)
  /\ shown st' = shown st ++ (if fires then [nudgePrompt] else []).
Proof.
  intros Hgo. cbv zeta.
  unfold evalState, execState, Demo.updateStatusWith.
  cbn.
  replace (clock h (clockReads st) - lastUpdate st <? 1000) with false
    by (symmetry; apply Z.ltb_ge; exact Hgo).
  cbn.
  generalize (score (metrics st) (clock h (S (clockReads st)))
                (random h (randomDraws st))).
  intros flow.
  remember (consecutiveLow (metrics st)) as low eqn:Hlow.
  destruct (flow >=? 70) eqn:E70; cbn.
  - rewrite (geb_70_40 _ E70). cbn. rewrite !andb_false_r. cbn.
    rewrite app_nil_r. repeat split.
  - destruct (flow >=? 40) eqn:E40; cbn.
    + rewrite !andb_false_r. cbn. rewrite app_nil_r. repeat split.
    + rewrite <- Hlow. destruct (assistMode st) eqn:Ea; cbn.
      * destruct (low + 1 >=? 5) eqn:E5; cbn; rewrite ?app_nil_r, ?Ea;
          repeat split.
      * rewrite app_nil_r, ?Ea. repeat split.
Qed.

Lemma demo_tick_inv (st st' : State) (f : Z) :
  runState (Demo.updateStatusWith h score) st = (Some f, st') ->
  1000 <= clock h (clockReads st) - lastUpdate st
  /\ st' = execState (Demo.updateStatusWith h score) st
  /\ evalState (Demo.updateStatusWith h score) st = Some f.
Proof.
  intros Hrun.
  destruct (Z.lt_ge_cases (clock h (clockReads st) - lastUpdate st) 1000)
    as [Hthr|Hgo].
  - rewrite (demo_tick_throttled st Hthr) in Hrun. discriminate.
  - unfold execState, evalState. rewrite Hrun. auto.
Qed.

Lemma demo_tick_effect (st st' : State) (f : Z) :
  runState (Demo.updateStatusWith h score) st = (Some f, st') ->
  let now := clock h (clockReads st) in
  let low := consecutiveLow (metrics st) in
  let fires := negb (f >=? 40) && assistMode st && (low + 1 >=? 5) in
  1000 <= now - lastUpdate st
  /\ f = score (metrics st) (clock h (S (clockReads st)))
            (random h (randomDraws st))
  /\ history st' = pushHistory (mkSample now f) (history st)
  /\ assistMode st' = assistMode st
  /\ lastUpdate st' = now
  /\ sb_flow (statusBar st') = Some f
  /\ consecutiveLow (metrics st')
     = (if f >=? 40 then 0 else if fires then 0 else low + 1)
  /\ shown st' = shown st ++ (if fires then [nudgePrompt] else []).
Proof.
  intros Hrun. cbv zeta.
  destruct (demo_tick_inv st st' f Hrun) as (Hgo & Hst & Hev).
  destruct (demo_tick_scored st Hgo) as (Hf & Hh & Ha & Hl & Hs & Hc & Hp).
  rewrite Hev in Hf. injection Hf as Hf.
  rewrite <- Hf in Hh, Hs, Hc, Hp. rewrite <- Hst in Hh, Ha, Hl, Hs, Hc, Hp.
  repeat split; assumption.
Qed.

Lemma demo_tick_none (st st' : State) :
  runState (Demo.updateStatusWith h score) st = (None, st') ->
  clock h (clockReads st) - lastUpdate st < 1000
  /\ st' = set_clockReads (S (clockReads st)) st.
Proof.
  intros Hrun.
  destruct (Z.lt_ge_cases (clock h (clockReads st) - lastUpdate st) 1000)
    as [Hthr|Hgo].
  - rewrite (demo_tick_throttled st Hthr) in Hrun.
    injection Hrun as Hrun. auto.
  - destruct (demo_tick_scored st Hgo) as (Hf & _).
    unfold evalState in Hf. rewrite Hrun in Hf. discriminate.
Qed.

End DemoTick.

(** ** The nudge state machine *)

(** The edit handler never touches the three variables of the nudge state
    machine, so edits may come between the ticks of a [lowRun]. *)
Lemma handleChange_sameNudgeState (h : Host) (now : Z) (c : Change) (st : State) :
  sameNudgeState st (execState (Windowed.handleChange h now c) st).
Proof.
  unfold sameNudgeState, Windowed.handleChange, execState.
  destruct (JS.or (JS.length (text c)) 0 >? 0),
           (JS.or (rangeLength c) 0 =? 0),
           (JS.or (rangeLength c) 0 >? 0),
           (JS.or (JS.length (text c)) 0 =? 0),
           ((JS.or (JS.length (text c)) 0 >? 40) || JS.includes_newline (text c));
    cbn; repeat split.
Qed.

(** So does a throttled call of [updateStatus]. *)
Lemma throttled_sameNudgeState (h : Host) (st : State) :
  clock h (clockReads st) - lastUpdate st < 1000 ->
  sameNudgeState st (execState (Windowed.updateStatus h) st).
Proof.
  intros Hthr. unfold Windowed.updateStatus, execState.
  rewrite (windowed_tick_throttled h Windowed.flowScore st Hthr).
  repeat split.
Qed.

(** Where a run of low ticks stands after [n <= 5] of them, started with
    assist mode on and the counter at 0. *)
Lemma lowRun_progress (h : Host) (st0 : State) :
  assistMode st0 = true ->
  consecutiveLow (metrics st0) = 0 ->
  forall (n : nat) (st : State),
    lowRun (Windowed.updateStatus h) 45 n st0 st ->
    (n <= 5)%nat ->
    assistMode st = true
    /\ consecutiveLow (metrics st) = (if (n =? 5)%nat then 0 else Z.of_nat n)
    /\ shown st = shown st0 ++ (if (n =? 5)%nat then [nudgePrompt] else []).
Proof.
  intros Ha0 Hc0 n st Hrun.
  induction Hrun as [st|n st0 st1 st2 st3 f Hrun IH Hsame Htick Hlow]; intros Hn.
  - simpl. rewrite app_nil_r. auto.
  - destruct (IH Ha0 Hc0) as (Ha1 & Hc1 & Hp1); [lia|].
    destruct Hsame as (Sc & Sa & Sp).
    unfold Windowed.updateStatus in Htick.
    destruct (windowed_tick_effect h Windowed.flowScore st2 st3 f Htick)
      as (_ & _ & _ & Ha3 & _ & _ & Hc3 & Hp3).
    replace (f >=? 45) with false in Hc3, Hp3
      by (symmetry; rewrite Z.geb_leb; apply Z.leb_gt; exact Hlow).
    rewrite <- Sa, Ha1 in Ha3, Hc3, Hp3.
    rewrite <- Sc, Hc1 in Hc3, Hp3.
    rewrite <- Sp, Hp1 in Hp3.
    replace (n =? 5)%nat with false in Hc3, Hp3
      by (symmetry; apply Nat.eqb_neq; lia).
    rewrite app_nil_r in Hp3. cbn [negb andb] in Hc3, Hp3.
    split; [exact Ha3|].
    destruct (Nat.eqb_spec (S n) 5) as [E|E].
    + replace (Z.of_nat n + 1 >=? 5) with true in Hc3, Hp3
        by (symmetry; rewrite Z.geb_leb; apply Z.leb_le; lia).
      split; assumption.
    + replace (Z.of_nat n + 1 >=? 5) with false in Hc3, Hp3
        by (symmetry; rewrite Z.geb_leb; apply Z.leb_gt; lia).
      rewrite app_nil_r in Hp3. split; [lia | rewrite app_nil_r; exact Hp3].
Qed.

(** A scoring tick at 45 or above resets the counter and shows nothing. *)
Lemma high_tick_resets (h : Host) (st st' : State) (f : Z) :
  runState (Windowed.updateStatus h) st = (Some f, st') ->
  45 <= f ->
  consecutiveLow (metrics st') = 0 /\ shown st' = shown st.
Proof.
  intros Htick Hhigh. unfold Windowed.updateStatus in Htick.
  destruct (windowed_tick_effect h Windowed.flowScore st st' f Htick)
    as (_ & _ & _ & _ & _ & _ & Hc & Hp).
  replace (f >=? 45) with true in Hc, Hp
    by (symmetry; rewrite Z.geb_leb; apply Z.leb_le; exact Hhigh).
  cbn [negb andb] in Hp. rewrite app_nil_r in Hp. auto.
Qed.

(** C5. With assist mode on and the counter at 0, a run of scoring ticks
    that each produce a score below 45 counts 1, 2, 3, 4 without showing
    anything, and on the fifth tick shows exactly one nudge, with the three
    choices "Take Break", "Request Hint" and "Ignore", and resets the
    counter to 0.  A scoring tick at 45 or above resets the counter to 0. *)
Theorem nudge_on_fifth_low_tick :
  forall (h : Host) (st0 : State) (n : nat) (st : State),
    assistMode st0 = true ->
    consecutiveLow (metrics st0) = 0 ->
    lowRun (Windowed.updateStatus h) 45 n st0 st ->
    (n <= 5)%nat ->
    consecutiveLow (metrics st) = (if (n =? 5)%nat then 0 else Z.of_nat n)
    /\ shown st = shown st0 ++ (if (n =? 5)%nat then [nudgePrompt] else [])
    /\ p_items nudgePrompt = ["Take Break"; "Request Hint"; "Ignore"]%string
    /\ (forall s s' f,
          runState (Windowed.updateStatus h) s = (Some f, s') ->
          45 <= f ->
          consecutiveLow (metrics s') = 0 /\ shown s' = shown s).
Proof.
  intros h st0 n st Ha0 Hc0 Hrun Hn.
  destruct (lowRun_progress h st0 Ha0 Hc0 n st Hrun Hn) as (_ & Hc & Hp).
  split; [exact Hc|]. split; [exact Hp|]. split; [reflexivity|].
  intros s s' f Htick Hhigh. exact (high_tick_resets h s s' f Htick Hhigh).
Qed.

(** Five ticks of the steady host on a session idle since activation: each
    scores 0, and the fifth shows the nudge. *)
Lemma nudge_on_fifth_low_tick_witness :
  let step := Windowed.updateStatus steadyHost in
  let s0 := freshState 1000 true in
  let s5 := execState step (execState step (execState step
              (execState step (execState step s0)))) in
  consecutiveLow (metrics s5) = 0 /\ shown s5 = [nudgePrompt].
Proof.
  intros step s0 s5.
  set (s1 := execState step s0).
  set (s2 := execState step s1).
  set (s3 := execState step s2).
  set (s4 := execState step s3).
  assert (T : forall a b, runState step a = (Some 0, b) ->
                          forall n, lowRun step 45 n s0 a ->
                                    lowRun step 45 (S n) s0 b).
  { intros a b Hab n Hn.
    apply (lowRun_tick step 45 n s0 a a b 0 Hn); [repeat split | exact Hab | reflexivity]. }
  assert (R : lowRun step 45 5 s0 s5).
  { apply (T s4 s5); [vm_compute; reflexivity|].
    apply (T s3 s4); [vm_compute; reflexivity|].
    apply (T s2 s3); [vm_compute; reflexivity|].
    apply (T s1 s2); [vm_compute; reflexivity|].
    apply (T s0 s1); [vm_compute; reflexivity|].
    apply lowRun_nil. }
  destruct (nudge_on_fifth_low_tick steadyHost s0 5 s5) as (Hc & Hp & _).
  - reflexivity.
  - reflexivity.
  - exact R.
  - apply le_n.
  - split; [exact Hc | exact Hp].
Defined.

(** In the simplified variant the mid threshold is 40: a tick scoring
    between 40 and 44 resets the counter, so a run of such ticks never
    nudges. *)
Lemma demo_tick_40_to_44_resets (h : Host) (st st' : State) (f : Z) :
  runState (Demo.updateStatus h) st = (Some f, st') ->
  40 <= f ->
  consecutiveLow (metrics st') = 0 /\ shown st' = shown st.
Proof.
  intros Htick Hhigh. unfold Demo.updateStatus in Htick.
  destruct (demo_tick_effect h Demo.flowScore st st' f Htick)
    as (_ & _ & _ & _ & _ & _ & Hc & Hp).
  replace (f >=? 40) with true in Hc, Hp
    by (symmetry; rewrite Z.geb_leb; apply Z.leb_le; exact Hhigh).
  cbn [negb andb] in Hp. rewrite app_nil_r in Hp. auto.
Qed.

(** ** The history *)

Lemma pushHistory_spec (smp : FlowSample) (l : list FlowSample) :
  Z.of_nat (List.length l) <= 20000 ->
  pushHistory smp l
  = (if Z.of_nat (List.length l) =? 20000 then tl l else l) ++ [smp]
  /\ Z.of_nat (List.length (pushHistory smp l))
     = Z.min 20000 (Z.of_nat (List.length l) + 1).
Proof.
  intros Hle. unfold pushHistory.
  rewrite length_app. simpl List.length.
  destruct (Z.eqb_spec (Z.of_nat (List.length l)) 20000) as [E|E].
  - replace (Z.of_nat (List.length l + 1) >? 20000) with true
      by (symmetry; apply Z.gtb_lt; lia).
    destruct l as [|a r]; [simpl in E; lia|].
    simpl. split; [reflexivity|].
    rewrite length_app. simpl List.length in *. lia.
  - replace (Z.of_nat (List.length l + 1) >? 20000) with false
      by (symmetry; rewrite Z.gtb_ltb; apply Z.ltb_ge; lia).
    split; [reflexivity|].
    rewrite length_app. simpl List.length. lia.
Qed.

(** C6. The history is a FIFO bounded at 20,000 samples.  A scoring tick
    appends one sample; on a history of exactly 20,000 it also evicts the
    oldest, leaving exactly 20,000; a throttled call leaves the history as
    it is; a history within the cap stays within the cap.  Both variants
    agree. *)
Theorem history_bounded_fifo :
  forall (h : Host) (st : State) (r : option Z) (st' : State),
    Z.of_nat (List.length (history st)) <= 20000 ->
    runState (Windowed.updateStatus h) st = (r, st')
    \/ runState (Demo.updateStatus h) st = (r, st') ->
    let len := Z.of_nat (List.length (history st)) in
    Z.of_nat (List.length (history st')) <= 20000
    /\ match r with
       | Some f =>
           history st'
           = (if len =? 20000 then tl (history st) else history st)
             ++ [mkSample (clock h (clockReads st)) f]
           /\ Z.of_nat (List.length (history st')) = Z.min 20000 (len + 1)
       | None => history st' = history st
       end.
Proof.
  intros h st r st' Hle Hrun len.
  assert (Hcases :
    match r with
    | Some f => history st'
                = pushHistory (mkSample (clock h (clockReads st)) f) (history st)
    | None => history st' = history st
    end).
  { destruct r as [f|].
    - destruct Hrun as [Hrun|Hrun].
      + unfold Windowed.updateStatus in Hrun.
        destruct (windowed_tick_effect h Windowed.flowScore st st' f Hrun)
          as (_ & _ & Hh & _). exact Hh.
      + unfold Demo.updateStatus in Hrun.
        destruct (demo_tick_effect h Demo.flowScore st st' f Hrun)
          as (_ & _ & Hh & _). exact Hh.
    - destruct Hrun as [Hrun|Hrun].
      + unfold Windowed.updateStatus in Hrun.
        destruct (windowed_tick_none h Windowed.flowScore st st' Hrun) as (_ & ->).
        reflexivity.
      + unfold Demo.updateStatus in Hrun.
        destruct (demo_tick_none h Demo.flowScore st st' Hrun) as (_ & ->).
        reflexivity. }
  destruct r as [f|].
  - destruct (pushHistory_spec (mkSample (clock h (clockReads st)) f)
                (history st) Hle) as (Hp & Hl).
    rewrite Hcases. fold len in Hp, Hl. repeat split; try assumption. lia.
  - rewrite Hcases. split; [exact Hle | reflexivity].
Qed.

(** A scoring tick on a history of two samples. *)
Lemma history_bounded_fifo_witness :
  let st := set_history [mkSample 98000 50; mkSample 99000 48] (freshState 1000 false) in
  let st' := execState (Windowed.updateStatus steadyHost) st in
  Z.of_nat (List.length (history st')) <= 20000
  /\ history st' = [mkSample 98000 50; mkSample 99000 48; mkSample 100000 0].
Proof.
  intros st st'.
  destruct (history_bounded_fifo steadyHost st (Some 0) st') as (Hle & Hh & _).
  - vm_compute. discriminate.
  - left. vm_compute. reflexivity.
  - split; [exact Hle | exact Hh].
Defined.

(** The specification's case: the 20,001st sample.  On a history filled to
    the cap, a scoring tick drops the oldest sample and appends the new
    one. *)
Example history_at_cap :
  let st := set_history fullHistory (freshState 1000 false) in
  let st' := execState (Windowed.updateStatus steadyHost) st in
  history st' = tl fullHistory ++ [mkSample 100000 0]
  /\ Z.of_nat (List.length (history st')) = 20000.
Proof.
  intros st st'.
  assert (Hlen : Z.of_nat (List.length fullHistory) = 20000).
  { unfold fullHistory. rewrite repeat_length. apply Z2Nat.id. lia. }
  assert (Hgo : 1000 <= clock steadyHost (clockReads st) - lastUpdate st).
  { vm_compute. discriminate. }
  destruct (windowed_tick_scored steadyHost Windowed.flowScore st Hgo)
    as (_ & Hh & _).
  fold (Windowed.updateStatus steadyHost) in Hh. fold st' in Hh.
  replace (Windowed.flowScore (metrics st) (activity st)
             (clock steadyHost (S (clockReads st)))
             (random steadyHost (randomDraws st))) with 0 in Hh
    by (vm_compute; reflexivity).
  change (history st) with fullHistory in Hh.
  change (clock steadyHost (clockReads st)) with 100000 in Hh.
  destruct (pushHistory_spec (mkSample 100000 0) fullHistory) as (Hp & Hl);
    [lia|].
  rewrite Hlen in Hp, Hl. rewrite <- Hh in Hp, Hl.
  split; [exact Hp | exact Hl].
Qed.

(** ** Re-evaluation within one second *)

(** C9, as stated, fails: with the jitter at 0 on both evaluations and
    nothing changed in between, the scorer evaluated at 11.000 s and at
    11.900 s (the same second) returns 40 and then 39: the idle decay is
    read off the clock in milliseconds.  The simplified variant does the
    same at 16.000 s and 16.001 s. *)
Lemma same_second_scores_differ :
  sameSecond 11000 11900
  /\ Windowed.jitter (1 # 2) = 0
  /\ Windowed.flowScore (mkMetrics 1000 0 0 0 0 0 0) [] 11000 (1 # 2) = 40
  /\ Windowed.flowScore (mkMetrics 1000 0 0 0 0 0 0) [] 11900 (1 # 2) = 39
  /\ sameSecond 16000 16001
  /\ Demo.jitter (1 # 2) = 0
  /\ Demo.flowScore (mkMetrics 1000 0 0 0 0 0 0) 16000 (1 # 2) = 30
  /\ Demo.flowScore (mkMetrics 1000 0 0 0 0 0 0) 16001 (1 # 2) = 29.
Proof. repeat split; vm_compute; reflexivity. Qed.

(** The score depends on the random draw only through the jitter. *)
Lemma flowScore_pinned_jitter (m : Metrics) (act : list ActivityEntry)
      (now : Z) (r1 r2 : Q) :
  Windowed.jitter r1 = Windowed.jitter r2 ->
  Windowed.flowScore m act now r1 = Windowed.flowScore m act now r2.
Proof. intros E. unfold Windowed.flowScore. rewrite E. reflexivity. Qed.

(** [computeFlow] reads the clock and the random source and changes nothing
    else. *)
Lemma computeFlow_pure (h : Host) (s : State) :
  execState (Windowed.computeFlow h) s
  = set_randomDraws (S (randomDraws s)) (set_clockReads (S (clockReads s)) s).
Proof. reflexivity. Qed.

(** C9, amended. [updateStatus] coalesces: after a scoring tick that
    produced [f], a call whose clock reading is less than 1000 ms later
    returns without scoring and leaves the displayed score [f], the
    history and the metrics as they are, in both variants.  The scorer
    itself is a function of metrics, window, clock reading and jitter:
    evaluated again on the same state at the same clock reading with the
    same jitter it returns the same score, and evaluating it changes
    neither the metrics nor the window.  (At two different clock readings
    within one second the scores may differ.) *)
Theorem rescoring_coalesced_and_deterministic :
  forall (h : Host) (st st1 st2 : State) (f : Z) (r : option Z),
    runState (Windowed.updateStatus h) st = (Some f, st1)
    /\ runState (Windowed.updateStatus h) st1 = (r, st2)
    \/ runState (Demo.updateStatus h) st = (Some f, st1)
       /\ runState (Demo.updateStatus h) st1 = (r, st2) ->
    clock h (clockReads st1) - clock h (clockReads st) < 1000 ->
    (r = None
     /\ sb_flow (statusBar st2) = Some f
     /\ history st2 = history st1
     /\ metrics st2 = metrics st1
     /\ activity st2 = activity st1)
    /\ (forall s,
          clock h (S (clockReads s)) = clock h (clockReads s) ->
          Windowed.jitter (random h (S (randomDraws s)))
          = Windowed.jitter (random h (randomDraws s)) ->
          let s' := execState (Windowed.computeFlow h) s in
          evalState (Windowed.computeFlow h) s'
          = evalState (Windowed.computeFlow h) s
          /\ metrics s' = metrics s
          /\ activity s' = activity s).
Proof.
  intros h st st1 st2 f r Hruns Hnear. split.
  - assert (Hfirst : lastUpdate st1 = clock h (clockReads st)
                     /\ sb_flow (statusBar st1) = Some f).
    { destruct Hruns as [[H1 _]|[H1 _]].
      - unfold Windowed.updateStatus in H1.
        destruct (windowed_tick_effect h Windowed.flowScore st st1 f H1)
          as (_ & _ & _ & _ & Hl & Hs & _). auto.
      - unfold Demo.updateStatus in H1.
        destruct (demo_tick_effect h Demo.flowScore st st1 f H1)
          as (_ & _ & _ & _ & Hl & Hs & _). auto. }
    destruct Hfirst as (Hl & Hs).
    assert (Hthr : clock h (clockReads st1) - lastUpdate st1 < 1000)
      by (rewrite Hl; exact Hnear).
    assert (Hsecond : (r, st2) = (None, set_clockReads (S (clockReads st1)) st1)).
    { destruct Hruns as [[_ H2]|[_ H2]].
      - unfold Windowed.updateStatus in H2.
        rewrite (windowed_tick_throttled h Windowed.flowScore st1 Hthr) in H2.
        symmetry. exact H2.
      - unfold Demo.updateStatus in H2.
        rewrite (demo_tick_throttled h Demo.flowScore st1 Hthr) in H2.
        symmetry. exact H2. }
    injection Hsecond as -> ->.
    repeat split; try reflexivity. exact Hs.
  - intros s Hclock Hjit s'. subst s'.
    rewrite computeFlow_pure, !windowed_computeFlow_value.
    cbn [set_randomDraws set_clockReads metrics activity clockReads randomDraws].
    rewrite Hclock. split; [|split; reflexivity].
    apply flowScore_pinned_jitter. exact Hjit.
Qed.

(** Two calls of [updateStatus] 300 ms apart: the first scores 40, the
    second is coalesced. *)
Lemma rescoring_coalesced_and_deterministic_witness :
  let h := mkHost (fun k => match k with
                            | O => 11000 | 1%nat => 11000 | _ => 11300
                            end)
                  (fun _ => 1 # 2) in
  let st := freshState 1000 false in
  let st1 := execState (Windowed.updateStatus h) st in
  let st2 := execState (Windowed.updateStatus h) st1 in
  evalState (Windowed.updateStatus h) st1 = None
  /\ sb_flow (statusBar st2) = Some 40
  /\ history st2 = [mkSample 11000 40].
Proof.
  intros h st st1 st2.
  destruct (rescoring_coalesced_and_deterministic h st st1 st2 40
              (evalState (Windowed.updateStatus h) st1))
    as ((Hr & Hs & Hh & _) & _).
  - left. split; vm_compute; reflexivity.
  - vm_compute. reflexivity.
  - split; [exact Hr|]. split; [exact Hs|]. rewrite Hh. vm_compute. reflexivity.
Defined.

(** * Further properties *)

(** ** Running handlers in sequence *)

Lemma JS_length_nonneg (s : string) : 0 <= JS.length s.
Proof. unfold JS.length. lia. Qed.

Lemma execState_bind {A B : Type} (m : M A) (k : A -> M B) (s : State) :
  execState (bind m k) s = execState (k (evalState m s)) (execState m s).
Proof.
  unfold execState, evalState. cbn. destruct (runState m s) as [a s']. reflexivity.
Qed.

Lemma evalState_bind {A B : Type} (m : M A) (k : A -> M B) (s : State) :
  evalState (bind m k) s = evalState (k (evalState m s)) (execState m s).
Proof.
  unfold execState, evalState. cbn. destruct (runState m s) as [a s']. reflexivity.
Qed.

Lemma stamp_app (h : Host) (k : nat) (a b : list EventBody) :
  stamp h k (a ++ b) = stamp h k a ++ stamp h (k + List.length a) b.
Proof.
  revert k. induction a as [|x a IH]; intros k; simpl.
  - now rewrite Nat.add_0_r.
  - rewrite IH. now rewrite Nat.add_succ_r.
Qed.

(** ** Batches of sub-changes *)

(** What one sub-change does to the log and what it leaves alone. *)
Lemma windowed_handleChange_log (h : Host) (now : Z) (c : Change) (st : State) :
  let st' := execState (Windowed.handleChange h now c) st in
  events st' = events st ++ stamp h (clockReads st) (bodiesOf [c])
  /\ clockReads st' = (clockReads st + List.length (bodiesOf [c]))%nat
  /\ history st' = history st /\ assistMode st' = assistMode st
  /\ lastUpdate st' = lastUpdate st /\ statusBar st' = statusBar st
  /\ shown st' = shown st /\ randomDraws st' = randomDraws st
  /\ lastChangeTs (metrics st') = lastChangeTs (metrics st)
  /\ aiRejections (metrics st') = aiRejections (metrics st)
  /\ consecutiveLow (metrics st') = consecutiveLow (metrics st).
Proof.
  cbv zeta. unfold bodiesOf, eventOf, Windowed.handleChange, execState.
  rewrite !JS_or_0. simpl flat_map.
  destruct (JS.length (text c) >? 0), (rangeLength c =? 0),
           (rangeLength c >? 0), (JS.length (text c) =? 0),
           ((JS.length (text c) >? 40) || JS.includes_newline (text c));
    cbn; rewrite ?app_nil_r, ?Nat.add_0_r, ?Nat.add_1_r; repeat split.
Qed.

Lemma demo_handleChange_log (h : Host) (c : Change) (st : State) :
  let st' := execState (Demo.handleChange h c) st in
  events st' = events st ++ stamp h (clockReads st) (bodiesOf [c])
  /\ clockReads st' = (clockReads st + List.length (bodiesOf [c]))%nat
  /\ history st' = history st /\ assistMode st' = assistMode st
  /\ lastUpdate st' = lastUpdate st /\ statusBar st' = statusBar st
  /\ shown st' = shown st /\ randomDraws st' = randomDraws st
  /\ lastChangeTs (metrics st') = lastChangeTs (metrics st)
  /\ aiRejections (metrics st') = aiRejections (metrics st)
  /\ consecutiveLow (metrics st') = consecutiveLow (metrics st).
Proof.
  cbv zeta. unfold bodiesOf, eventOf, Demo.handleChange, execState.
  rewrite !JS_or_0. simpl flat_map.
  destruct (JS.length (text c) >? 0), (rangeLength c =? 0),
           (rangeLength c >? 0), (JS.length (text c) =? 0),
           ((JS.length (text c) >? 40) || JS.includes_newline (text c));
    cbn; rewrite ?app_nil_r, ?Nat.add_0_r, ?Nat.add_1_r; repeat split.
Qed.

(** Case analysis on the signs of [inserted] and [removed]. *)
Ltac by_signs c :=
  let n := fresh "n" in
  let r := fresh "r" in
  pose proof (JS_length_nonneg (text c));
  remember (JS.length (text c)) as n;
  remember (rangeLength c) as r;
  let Hn := fresh in let Hr := fresh in
  assert (Hn : n = 0 \/ 0 < n) by lia;
  assert (Hr : r < 0 \/ r = 0 \/ 0 < r) by lia;
  destruct Hn as [Hn|Hn]; destruct Hr as [Hr|[Hr|Hr]];
  decide_tests; cbn [andb orb].

(** What one sub-change does to the four counters of the classifier. *)
Lemma windowed_handleChange_counters (h : Host) (now : Z) (c : Change) (st : State) :
  let m := metrics st in
  let m' := metrics (execState (Windowed.handleChange h now c) st) in
  (0 <= rangeLength c ->
   totalInsertions m' = totalInsertions m + JS.length (text c)
   /\ totalDeletions m' = totalDeletions m + rangeLength c)
  /\ (countersConsistent m -> countersConsistent m')
  /\ totalInsertions m <= totalInsertions m'
  /\ totalDeletions m <= totalDeletions m'
  /\ aiInsertions m <= aiInsertions m'
  /\ undoCount m <= undoCount m'.
Proof.
  cbv zeta. unfold countersConsistent, Windowed.handleChange, execState.
  rewrite !JS_or_0.
  by_signs c;
    destruct ((n >? 40) || JS.includes_newline (text c));
    cbn; repeat split; intros; lia.
Qed.

Lemma demo_handleChange_counters (h : Host) (c : Change) (st : State) :
  let m := metrics st in
  let m' := metrics (execState (Demo.handleChange h c) st) in
  (0 <= rangeLength c ->
   totalInsertions m' = totalInsertions m + JS.length (text c)
   /\ totalDeletions m' = totalDeletions m + rangeLength c)
  /\ (countersConsistent m -> countersConsistent m')
  /\ totalInsertions m <= totalInsertions m'
  /\ totalDeletions m <= totalDeletions m'
  /\ aiInsertions m <= aiInsertions m'
  /\ undoCount m <= undoCount m'.
Proof.
  cbv zeta. unfold countersConsistent, Demo.handleChange, execState.
  rewrite !JS_or_0.
  by_signs c;
    destruct ((n >? 40) || JS.includes_newline (text c));
    cbn; repeat split; intros; lia.
Qed.

(** ** What [updateStatus] leaves alone *)

Section TickFrame.

Variable h : Host.

Lemma windowed_tick_frame score (st : State) :
  let st' := execState (Windowed.updateStatusWith h score) st in
  events st' = events st
  /\ activity st' = activity st
  /\ assistMode st' = assistMode st
  /\ counters (metrics st') = counters (metrics st).
Proof.
  cbv zeta.
  destruct (Z.lt_ge_cases (clock h (clockReads st) - lastUpdate st) 1000)
    as [Hthr|Hgo].
  - unfold execState. rewrite (windowed_tick_throttled h score st Hthr).
    repeat split.
  - unfold execState, Windowed.updateStatusWith. cbn.
    replace (clock h (clockReads st) - lastUpdate st <? 1000) with false
      by (symmetry; apply Z.ltb_ge; exact Hgo).
    cbn.
    generalize (score (metrics st) (activity st)
                  (clock h (S (clockReads st))) (random h (randomDraws st))).
    intros flow.
    destruct (flow >=? 70), (flow >=? 45), (assistMode st) eqn:Ea;
      cbn; rewrite ?Ea; cbn;
      try destruct (consecutiveLow (metrics st) + 1 >=? 5);
      cbn; rewrite ?Ea; repeat split.
Qed.

Lemma demo_tick_frame score (st : State) :
  let st' := execState (Demo.updateStatusWith h score) st in
  events st' = events st
  /\ activity st' = activity st
  /\ assistMode st' = assistMode st
  /\ counters (metrics st') = counters (metrics st).
Proof.
  cbv zeta.
  destruct (Z.lt_ge_cases (clock h (clockReads st) - lastUpdate st) 1000)
    as [Hthr|Hgo].
  - unfold execState. rewrite (demo_tick_throttled h score st Hthr).
    repeat split.
  - unfold execState, Demo.updateStatusWith. cbn.
    replace (clock h (clockReads st) - lastUpdate st <? 1000) with false
      by (symmetry; apply Z.ltb_ge; exact Hgo).
    cbn.
    generalize (score (metrics st) (clock h (S (clockReads st)))
                  (random h (randomDraws st))).
    intros flow.
    destruct (flow >=? 70), (flow >=? 40), (assistMode st) eqn:Ea;
      cbn; rewrite ?Ea; cbn;
      try destruct (consecutiveLow (metrics st) + 1 >=? 5);
      cbn; rewrite ?Ea; repeat split.
Qed.

End TickFrame.

(** X1. Scoring does not touch what it scores from: a call of
    [updateStatus], scoring or throttled, leaves the event log, the
    activity window, assist mode and every metric but [consecutiveLow] as
    they were; both variants. *)
Theorem updateStatus_leaves_inputs_alone :
  forall (h : Host) (st : State),
    let w := execState (Windowed.updateStatus h) st in
    let d := execState (Demo.updateStatus h) st in
    (events w = events st /\ activity w = activity st
     /\ assistMode w = assistMode st
     /\ counters (metrics w) = counters (metrics st))
    /\ (events d = events st /\ activity d = activity st
        /\ assistMode d = assistMode st
        /\ counters (metrics d) = counters (metrics st)).
Proof.
  intros h st. cbv zeta. unfold Windowed.updateStatus, Demo.updateStatus.
  split; [apply windowed_tick_frame | apply demo_tick_frame].
Qed.

(** ** A whole batch *)

Lemma bodiesOf_cons (c : Change) (cs : list Change) :
  bodiesOf (c :: cs) = bodiesOf [c] ++ bodiesOf cs.
Proof. unfold bodiesOf. simpl. now rewrite app_nil_r. Qed.

Lemma windowed_forEach_cons (h : Host) (now : Z) (c : Change) (cs : list Change) :
  Windowed.forEachChange h now (c :: cs)
  = (Windowed.handleChange h now c ;; Windowed.forEachChange h now cs).
Proof. reflexivity. Qed.

Lemma demo_forEach_cons (h : Host) (c : Change) (cs : list Change) :
  Demo.forEachChange h (c :: cs)
  = (Demo.handleChange h c ;; Demo.forEachChange h cs).
Proof. reflexivity. Qed.

Lemma windowed_forEach_log (h : Host) (now : Z) (cs : list Change) :
  forall st,
    let st' := execState (Windowed.forEachChange h now cs) st in
    events st' = events st ++ stamp h (clockReads st) (bodiesOf cs)
    /\ lastChangeTs (metrics st') = lastChangeTs (metrics st)
    /\ aiRejections (metrics st') = aiRejections (metrics st).
Proof.
  induction cs as [|c cs IH]; intros st; cbv zeta.
  - simpl. rewrite app_nil_r. repeat split.
  - rewrite windowed_forEach_cons, execState_bind.
    destruct (windowed_handleChange_log h now c st)
      as (He & Hk & _ & _ & _ & _ & _ & _ & Hl & Hr & _).
    destruct (IH (execState (Windowed.handleChange h now c) st)) as (He' & Hl' & Hr').
    rewrite He', Hl', Hr', He, Hk, Hl, Hr.
    rewrite (bodiesOf_cons c cs), stamp_app, app_assoc.
    repeat split.
Qed.

Lemma demo_forEach_log (h : Host) (cs : list Change) :
  forall st,
    let st' := execState (Demo.forEachChange h cs) st in
    events st' = events st ++ stamp h (clockReads st) (bodiesOf cs)
    /\ lastChangeTs (metrics st') = lastChangeTs (metrics st)
    /\ aiRejections (metrics st') = aiRejections (metrics st).
Proof.
  induction cs as [|c cs IH]; intros st; cbv zeta.
  - simpl. rewrite app_nil_r. repeat split.
  - rewrite demo_forEach_cons, execState_bind.
    destruct (demo_handleChange_log h c st)
      as (He & Hk & _ & _ & _ & _ & _ & _ & Hl & Hr & _).
    destruct (IH (execState (Demo.handleChange h c) st)) as (He' & Hl' & Hr').
    rewrite He', Hl', Hr', He, Hk, Hl, Hr.
    rewrite (bodiesOf_cons c cs), stamp_app, app_assoc.
    repeat split.
Qed.

Lemma windowed_forEach_counters (h : Host) (now : Z) (cs : list Change) :
  forall st,
    let m := metrics st in
    let m' := metrics (execState (Windowed.forEachChange h now cs) st) in
    (Forall (fun c => 0 <= rangeLength c) cs ->
     totalInsertions m' = totalInsertions m + insertedTotal cs
     /\ totalDeletions m' = totalDeletions m + removedTotal cs)
    /\ (countersConsistent m -> countersConsistent m')
    /\ totalInsertions m <= totalInsertions m'
    /\ totalDeletions m <= totalDeletions m'
    /\ aiInsertions m <= aiInsertions m'
    /\ undoCount m <= undoCount m'.
Proof.
  induction cs as [|c cs IH]; intros st; cbv zeta.
  - unfold countersConsistent, execState. cbn. repeat split; intros; lia.
  - rewrite windowed_forEach_cons, execState_bind.
    destruct (windowed_handleChange_counters h now c st)
      as (Ht & Hc & M1 & M2 & M3 & M4).
    destruct (IH (execState (Windowed.handleChange h now c) st))
      as (Ht' & Hc' & M1' & M2' & M3' & M4').
    split; [intros HF | split; [intros HC | repeat split; lia]].
    + inversion HF as [|? ? Hc0 Hcs]; subst.
      destruct (Ht Hc0) as (E1 & E2). destruct (Ht' Hcs) as (E1' & E2').
      unfold insertedTotal, removedTotal. simpl fold_right.
      fold (insertedTotal cs). fold (removedTotal cs). split; lia.
    + apply Hc', Hc, HC.
Qed.

Lemma demo_forEach_counters (h : Host) (cs : list Change) :
  forall st,
    let m := metrics st in
    let m' := metrics (execState (Demo.forEachChange h cs) st) in
    (Forall (fun c => 0 <= rangeLength c) cs ->
     totalInsertions m' = totalInsertions m + insertedTotal cs
     /\ totalDeletions m' = totalDeletions m + removedTotal cs)
    /\ (countersConsistent m -> countersConsistent m')
    /\ totalInsertions m <= totalInsertions m'
    /\ totalDeletions m <= totalDeletions m'
    /\ aiInsertions m <= aiInsertions m'
    /\ undoCount m <= undoCount m'.
Proof.
  induction cs as [|c cs IH]; intros st; cbv zeta.
  - unfold countersConsistent, execState. cbn. repeat split; intros; lia.
  - rewrite demo_forEach_cons, execState_bind.
    destruct (demo_handleChange_counters h c st)
      as (Ht & Hc & M1 & M2 & M3 & M4).
    destruct (IH (execState (Demo.handleChange h c) st))
      as (Ht' & Hc' & M1' & M2' & M3' & M4').
    split; [intros HF | split; [intros HC | repeat split; lia]].
    + inversion HF as [|? ? Hc0 Hcs]; subst.
      destruct (Ht Hc0) as (E1 & E2). destruct (Ht' Hcs) as (E1' & E2').
      unfold insertedTotal, removedTotal. simpl fold_right.
      fold (insertedTotal cs). fold (removedTotal cs). split; lia.
    + apply Hc', Hc, HC.
Qed.

Lemma windowed_listener_exec (h : Host) (cs : list Change) (st : State) :
  execState (Windowed.onDidChangeTextDocument h cs) st
  = execState (Windowed.updateStatus h)
      (execState (Windowed.forEachChange h (clock h (clockReads st)) cs)
                 (touched h st)).
Proof.
  unfold Windowed.onDidChangeTextDocument.
  rewrite execState_bind. cbv beta.
  rewrite execState_bind. cbv beta.
  rewrite execState_bind. cbv beta.
  reflexivity.
Qed.

Lemma demo_listener_exec (h : Host) (cs : list Change) (st : State) :
  execState (Demo.onDidChangeTextDocument h cs) st
  = execState (Demo.updateStatus h)
      (execState (Demo.forEachChange h cs) (touched h st)).
Proof.
  unfold Demo.onDidChangeTextDocument.
  rewrite execState_bind. cbv beta.
  rewrite execState_bind. cbv beta.
  rewrite execState_bind. cbv beta.
  reflexivity.
Qed.

Lemma counters_fields (m m' : Metrics) :
  counters m' = counters m ->
  lastChangeTs m' = lastChangeTs m
  /\ totalInsertions m' = totalInsertions m
  /\ totalDeletions m' = totalDeletions m
  /\ aiInsertions m' = aiInsertions m
  /\ aiRejections m' = aiRejections m
  /\ undoCount m' = undoCount m.
Proof.
  intros E. unfold counters, set_consecutiveLow in E.
  injection E as -> -> -> -> -> ->. repeat split.
Qed.

(** X2. One text-change notification logs one event per sub-change that
    inserts or removes something, in the order of the sub-changes, each
    stamped with a clock reading of its own; sub-changes that do neither
    log nothing; the scoring that ends the listener adds no event. *)
Theorem batch_logged_in_order :
  forall (h : Host) (cs : list Change) (st : State),
    events (execState (Windowed.onDidChangeTextDocument h cs) st)
    = events st ++ stamp h (S (clockReads st)) (bodiesOf cs)
    /\ events (execState (Demo.onDidChangeTextDocument h cs) st)
       = events st ++ stamp h (S (clockReads st)) (bodiesOf cs).
Proof.
  intros h cs st. split.
  - rewrite windowed_listener_exec. unfold Windowed.updateStatus.
    destruct (windowed_tick_frame h Windowed.flowScore
                (execState (Windowed.forEachChange h (clock h (clockReads st)) cs)
                           (touched h st))) as (He & _).
    rewrite He.
    destruct (windowed_forEach_log h (clock h (clockReads st)) cs (touched h st))
      as (He' & _).
    rewrite He'. reflexivity.
  - rewrite demo_listener_exec. unfold Demo.updateStatus.
    destruct (demo_tick_frame h Demo.flowScore
                (execState (Demo.forEachChange h cs) (touched h st))) as (He & _).
    rewrite He.
    destruct (demo_forEach_log h cs (touched h st)) as (He' & _).
    rewrite He'. reflexivity.
Qed.

(** X3. A text-change notification whose sub-changes have non-negative
    removed lengths raises [totalInsertions] by the number of characters
    inserted and [totalDeletions] by the number removed, over the whole
    batch, sets [lastChangeTs] to the listener's clock reading and leaves
    [aiRejections] alone; both variants. *)
Theorem batch_totals :
  forall (h : Host) (cs : list Change) (st : State),
    Forall (fun c => 0 <= rangeLength c) cs ->
    let m := metrics st in
    let w := metrics (execState (Windowed.onDidChangeTextDocument h cs) st) in
    let d := metrics (execState (Demo.onDidChangeTextDocument h cs) st) in
    (totalInsertions w = totalInsertions m + insertedTotal cs
     /\ totalDeletions w = totalDeletions m + removedTotal cs
     /\ lastChangeTs w = clock h (clockReads st)
     /\ aiRejections w = aiRejections m)
    /\ (totalInsertions d = totalInsertions m + insertedTotal cs
        /\ totalDeletions d = totalDeletions m + removedTotal cs
        /\ lastChangeTs d = clock h (clockReads st)
        /\ aiRejections d = aiRejections m).
Proof.
  intros h cs st HF. cbv zeta. split.
  - rewrite windowed_listener_exec. unfold Windowed.updateStatus.
    destruct (windowed_tick_frame h Windowed.flowScore
                (execState (Windowed.forEachChange h (clock h (clockReads st)) cs)
                           (touched h st))) as (_ & _ & _ & Hc).
    destruct (counters_fields _ _ Hc) as (-> & -> & -> & _ & -> & _).
    destruct (windowed_forEach_counters h (clock h (clockReads st)) cs (touched h st))
      as (Ht & _).
    destruct (Ht HF) as (-> & ->).
    destruct (windowed_forEach_log h (clock h (clockReads st)) cs (touched h st))
      as (_ & -> & ->).
    repeat split.
  - rewrite demo_listener_exec. unfold Demo.updateStatus.
    destruct (demo_tick_frame h Demo.flowScore
                (execState (Demo.forEachChange h cs) (touched h st)))
      as (_ & _ & _ & Hc).
    destruct (counters_fields _ _ Hc) as (-> & -> & -> & _ & -> & _).
    destruct (demo_forEach_counters h cs (touched h st)) as (Ht & _).
    destruct (Ht HF) as (-> & ->).
    destruct (demo_forEach_log h cs (touched h st)) as (_ & -> & ->).
    repeat split.
Qed.

(** An insertion, a deletion and a replace in one notification. *)
Lemma batch_totals_witness :
  let cs := [mkChange "abc" 0; mkChange "" 2; mkChange "xy" 1] in
  let w := metrics (execState (Windowed.onDidChangeTextDocument steadyHost cs)
                              (freshState 1000 false)) in
  totalInsertions w = 5 /\ totalDeletions w = 3 /\ lastChangeTs w = 100000.
Proof.
  intros cs w.
  destruct (batch_totals steadyHost cs (freshState 1000 false))
    as ((Hi & Hd & Hl & _) & _).
  - repeat constructor; simpl; lia.
  - split; [exact Hi | split; [exact Hd | exact Hl]].
Defined.

(** X4. The classifier keeps [0 <= aiInsertions <= totalInsertions] and
    [0 <= undoCount <= totalDeletions] across a text-change notification,
    whatever the sub-changes, and none of the four counters decreases;
    both variants. *)
Theorem counters_stay_consistent :
  forall (h : Host) (cs : list Change) (st : State),
    countersConsistent (metrics st) ->
    let m := metrics st in
    let w := metrics (execState (Windowed.onDidChangeTextDocument h cs) st) in
    let d := metrics (execState (Demo.onDidChangeTextDocument h cs) st) in
    (countersConsistent w
     /\ totalInsertions m <= totalInsertions w
     /\ totalDeletions m <= totalDeletions w
     /\ aiInsertions m <= aiInsertions w
     /\ undoCount m <= undoCount w)
    /\ (countersConsistent d
        /\ totalInsertions m <= totalInsertions d
        /\ totalDeletions m <= totalDeletions d
        /\ aiInsertions m <= aiInsertions d
        /\ undoCount m <= undoCount d).
Proof.
  intros h cs st HC. cbv zeta. split.
  - rewrite windowed_listener_exec. unfold Windowed.updateStatus.
    destruct (windowed_tick_frame h Windowed.flowScore
                (execState (Windowed.forEachChange h (clock h (clockReads st)) cs)
                           (touched h st))) as (_ & _ & _ & Hc).
    destruct (counters_fields _ _ Hc) as (_ & E1 & E2 & E3 & _ & E4).
    unfold countersConsistent. rewrite E1, E2, E3, E4.
    destruct (windowed_forEach_counters h (clock h (clockReads st)) cs (touched h st))
      as (_ & Hk & M1 & M2 & M3 & M4).
    split; [apply Hk; exact HC | repeat split; assumption].
  - rewrite demo_listener_exec. unfold Demo.updateStatus.
    destruct (demo_tick_frame h Demo.flowScore
                (execState (Demo.forEachChange h cs) (touched h st)))
      as (_ & _ & _ & Hc).
    destruct (counters_fields _ _ Hc) as (_ & E1 & E2 & E3 & _ & E4).
    unfold countersConsistent. rewrite E1, E2, E3, E4.
    destruct (demo_forEach_counters h cs (touched h st))
      as (_ & Hk & M1 & M2 & M3 & M4).
    split; [apply Hk; exact HC | repeat split; assumption].
Qed.

(** The same notification on a fresh session. *)
Lemma counters_stay_consistent_witness :
  let cs := [mkChange "abc" 0; mkChange "" 2; mkChange "xy" 1] in
  countersConsistent
    (metrics (execState (Windowed.onDidChangeTextDocument steadyHost cs)
                        (freshState 1000 false))).
Proof.
  intros cs.
  destruct (counters_stay_consistent steadyHost cs (freshState 1000 false))
    as ((Hc & _) & _).
  - unfold countersConsistent. simpl. lia.
  - exact Hc.
Defined.

(** ** Replaces *)

(** X5. A replace (text inserted over a non-empty removed range) is logged
    as one event carrying both sizes: [ai.replace], with [aiInsertions]
    incremented, when the inserted text is longer than 40 or contains a
    newline, and [replace] otherwise.  Either way the inserted length goes
    to [totalInsertions], the removed length to [totalDeletions], and
    [undoCount] stays; both variants. *)
Theorem replace_classified :
  forall (h : Host) (now : Z) (st : State) (c : Change),
    text c <> ""%string ->
    0 < rangeLength c ->
    let n := JS.length (text c) in
    let r := rangeLength c in
    let ai := (n >? 40) || JS.includes_newline (text c) in
    let body := if ai then ev_ai_replace n r else ev_replace n r in
    let ts := clock h (clockReads st) in
    let effect st' :=
      events st' = events st ++ [mkEvent body ts]
      /\ aiInsertions (metrics st') = aiInsertions (metrics st) + (if ai then 1 else 0)
      /\ totalInsertions (metrics st') = totalInsertions (metrics st) + n
      /\ totalDeletions (metrics st') = totalDeletions (metrics st) + r
      /\ undoCount (metrics st') = undoCount (metrics st) in
    ev_type body = (if ai then "ai.replace" else "replace")%string
    /\ effect (execState (Windowed.handleChange h now c) st)
    /\ effect (execState (Demo.handleChange h c) st).
Proof.
  intros h now st c Ht Hr n r ai body ts effect.
  pose proof (JS_length_pos _ Ht) as Hn. fold n in Hn.
  subst effect body.
  unfold Windowed.handleChange, Demo.handleChange, execState.
  rewrite !JS_or_0. fold n. fold r. fold r in Hr. decide_tests. cbn [andb]. fold ai.
  destruct ai; cbn; repeat split; lia.
Qed.

(** A three-character replacement of two characters. *)
Lemma replace_classified_witness :
  let st' := execState (Windowed.handleChange steadyHost 100000 (mkChange "abc" 2))
                       (freshState 1000 false) in
  events st' = [mkEvent (ev_replace 3 2) 100000]
  /\ totalInsertions (metrics st') = 3
  /\ totalDeletions (metrics st') = 2.
Proof.
  intros st'.
  destruct (replace_classified steadyHost 100000 (freshState 1000 false)
              (mkChange "abc" 2)) as (_ & (He & _ & Hi & Hd & _) & _).
  - discriminate.
  - reflexivity.
  - split; [exact He | split; [exact Hi | exact Hd]].
Defined.

(** ** More of the nudge state machine *)

(** The counter after a call of [updateStatus], whatever it returned. *)
Lemma windowed_low_counter (h : Host) (st st' : State) (r : option Z) :
  runState (Windowed.updateStatus h) st = (r, st') ->
  assistMode st' = assistMode st
  /\ match r with
     | None => consecutiveLow (metrics st') = consecutiveLow (metrics st)
               /\ shown st' = shown st
     | Some f =>
         let low := consecutiveLow (metrics st) in
         let fires := negb (f >=? 45) && assistMode st && (low + 1 >=? 5) in
         consecutiveLow (metrics st')
         = (if f >=? 45 then 0 else if fires then 0 else low + 1)
         /\ shown st' = shown st ++ (if fires then [nudgePrompt] else [])
     end.
Proof.
  intros Hrun. unfold Windowed.updateStatus in Hrun. destruct r as [f|].
  - destruct (windowed_tick_effect h Windowed.flowScore st st' f Hrun)
      as (_ & _ & _ & Ha & _ & _ & Hc & Hp). auto.
  - destruct (windowed_tick_none h Windowed.flowScore st st' Hrun) as (_ & ->).
    repeat split.
Qed.

Lemma demo_low_counter (h : Host) (st st' : State) (r : option Z) :
  runState (Demo.updateStatus h) st = (r, st') ->
  assistMode st' = assistMode st
  /\ match r with
     | None => consecutiveLow (metrics st') = consecutiveLow (metrics st)
               /\ shown st' = shown st
     | Some f =>
         let low := consecutiveLow (metrics st) in
         let fires := negb (f >=? 40) && assistMode st && (low + 1 >=? 5) in
         consecutiveLow (metrics st')
         = (if f >=? 40 then 0 else if fires then 0 else low + 1)
         /\ shown st' = shown st ++ (if fires then [nudgePrompt] else [])
     end.
Proof.
  intros Hrun. unfold Demo.updateStatus in Hrun. destruct r as [f|].
  - destruct (demo_tick_effect h Demo.flowScore st st' f Hrun)
      as (_ & _ & _ & Ha & _ & _ & Hc & Hp). auto.
  - destruct (demo_tick_none h Demo.flowScore st st' Hrun) as (_ & ->).
    repeat split.
Qed.

(** X6. While assist mode is on, [consecutiveLow] stays between 0 and 4
    across every call of [updateStatus], scoring or throttled: the fifth
    low tick in a row always resets it.  Both variants. *)
Theorem low_counter_bounded_with_assist :
  forall (h : Host) (st st' : State) (r : option Z),
    runState (Windowed.updateStatus h) st = (r, st')
    \/ runState (Demo.updateStatus h) st = (r, st') ->
    assistMode st = true ->
    0 <= consecutiveLow (metrics st) <= 4 ->
    0 <= consecutiveLow (metrics st') <= 4 /\ assistMode st' = true.
Proof.
  intros h st st' r Hrun Ha Hc.
  destruct Hrun as [Hrun|Hrun].
  - destruct (windowed_low_counter h st st' r Hrun) as (Ha' & Hr).
    split; [|congruence].
    destruct r as [f|]; cbv zeta in Hr; destruct Hr as (Hc' & _); [|lia].
    rewrite Hc', Ha.
    destruct (f >=? 45); cbn [negb andb]; [lia|].
    destruct (Z.geb_spec (consecutiveLow (metrics st) + 1) 5); lia.
  - destruct (demo_low_counter h st st' r Hrun) as (Ha' & Hr).
    split; [|congruence].
    destruct r as [f|]; cbv zeta in Hr; destruct Hr as (Hc' & _); [|lia].
    rewrite Hc', Ha.
    destruct (f >=? 40); cbn [negb andb]; [lia|].
    destruct (Z.geb_spec (consecutiveLow (metrics st) + 1) 5); lia.
Qed.

(** A low tick of the steady host on a fresh session with assist on. *)
Lemma low_counter_bounded_with_assist_witness :
  let st' := execState (Windowed.updateStatus steadyHost) (freshState 1000 true) in
  0 <= consecutiveLow (metrics st') <= 4 /\ assistMode st' = true.
Proof.
  intros st'.
  apply (low_counter_bounded_with_assist steadyHost (freshState 1000 true) st'
           (evalState (Windowed.updateStatus steadyHost) (freshState 1000 true))).
  - left. vm_compute. reflexivity.
  - reflexivity.
  - vm_compute. split; discriminate.
Defined.

(** X7. While assist mode is off nothing is shown and the counter is never
    reset by the nudge: after [n] scoring ticks below 45 in a row it has
    grown by [n], however large [n] is. *)
Theorem low_run_accumulates_without_assist :
  forall (h : Host) (st0 : State) (n : nat) (st : State),
    assistMode st0 = false ->
    lowRun (Windowed.updateStatus h) 45 n st0 st ->
    assistMode st = false
    /\ consecutiveLow (metrics st) = consecutiveLow (metrics st0) + Z.of_nat n
    /\ shown st = shown st0.
Proof.
  intros h st0 n st Ha0 Hrun.
  induction Hrun as [st|n st0 st1 st2 st3 f Hrun IH Hsame Htick Hlow].
  - repeat split; auto. lia.
  - destruct (IH Ha0) as (Ha1 & Hc1 & Hp1).
    destruct Hsame as (Sc & Sa & Sp).
    destruct (windowed_low_counter h st2 st3 (Some f) Htick) as (Ha3 & Hc3 & Hp3).
    replace (f >=? 45) with false in Hc3, Hp3
      by (symmetry; rewrite Z.geb_leb; apply Z.leb_gt; exact Hlow).
    rewrite <- Sa, Ha1 in Ha3, Hc3, Hp3. cbn [negb andb] in Hc3, Hp3.
    rewrite app_nil_r in Hp3.
    split; [exact Ha3|]. split; [|congruence].
    rewrite Hc3, <- Sc, Hc1. lia.
Qed.

(** Six low ticks in a row with assist off. *)
Lemma low_run_accumulates_without_assist_witness :
  let step := Windowed.updateStatus steadyHost in
  let s0 := freshState 1000 false in
  let s6 := execState step (execState step (execState step
              (execState step (execState step (execState step s0))))) in
  consecutiveLow (metrics s6) = 6 /\ shown s6 = [].
Proof.
  intros step s0 s6.
  set (s1 := execState step s0).
  set (s2 := execState step s1).
  set (s3 := execState step s2).
  set (s4 := execState step s3).
  set (s5 := execState step s4).
  assert (T : forall a b, runState step a = (Some 0, b) ->
                          forall n, lowRun step 45 n s0 a ->
                                    lowRun step 45 (S n) s0 b).
  { intros a b Hab n Hn.
    apply (lowRun_tick step 45 n s0 a a b 0 Hn); [repeat split | exact Hab | reflexivity]. }
  assert (R : lowRun step 45 6 s0 s6).
  { apply (T s5 s6); [vm_compute; reflexivity|].
    apply (T s4 s5); [vm_compute; reflexivity|].
    apply (T s3 s4); [vm_compute; reflexivity|].
    apply (T s2 s3); [vm_compute; reflexivity|].
    apply (T s1 s2); [vm_compute; reflexivity|].
    apply (T s0 s1); [vm_compute; reflexivity|].
    apply lowRun_nil. }
  destruct (low_run_accumulates_without_assist steadyHost s0 6 s6 eq_refl R)
    as (_ & Hc & Hp).
  split; [exact Hc | exact Hp].
Defined.

(** ** Answering the nudge and toggling assist mode *)

(** Pattern matching on the two string literals decides the same three
    cases as the comparisons of [nudgeActionOf]. *)
Lemma match_choice_by_action {A : Type} (x y z : A) (choice : option string) :
  match choice with
  | Some "Take Break"%string => x
  | Some "Request Hint"%string => y
  | _ => z
  end
  = (let a := nudgeActionOf choice in
     if String.eqb a "break" then x
     else if String.eqb a "hint" then y
     else z).
Proof.
  destruct choice as [c|]; [|reflexivity].
  unfold nudgeActionOf.
  repeat (destruct c as [|[b0 b1 b2 b3 b4 b5 b6 b7] c]; [reflexivity|];
          destruct b0; try reflexivity; destruct b1; try reflexivity;
          destruct b2; try reflexivity; destruct b3; try reflexivity;
          destruct b4; try reflexivity; destruct b5; try reflexivity;
          destruct b6; try reflexivity; destruct b7; try reflexivity).
Qed.

Lemma onNudgeChoice_by_action (h : Host) (choice : option string) :
  onNudgeChoice h choice
  = (let a := nudgeActionOf choice in
     if String.eqb a "break" then
       showInformationMessage "Take a 2-minute break. Step away and stretch." [] ;;
       logEvent h (ev_nudge "break")
     else if String.eqb a "hint" then
       showInformationMessage
         "Hint: isolate the problem; add logs or write a failing test." [] ;;
       logEvent h (ev_nudge "hint")
     else logEvent h (ev_nudge "ignored")).
Proof. unfold onNudgeChoice. apply match_choice_by_action. Qed.

Lemma onNudgeChoice_run (h : Host) (choice : option string) (st : State) :
  execState (onNudgeChoice h choice) st
  = set_events
      (events st ++ [mkEvent (ev_nudge (nudgeActionOf choice)) (clock h (clockReads st))])
      (set_clockReads (S (clockReads st))
         (set_shown (shown st ++ nudgeFollowUp (nudgeActionOf choice)) st)).
Proof.
  rewrite onNudgeChoice_by_action. cbv zeta.
  assert (Hcases : nudgeActionOf choice = "break"%string
                   \/ nudgeActionOf choice = "hint"%string
                   \/ nudgeActionOf choice = "ignored"%string).
  { unfold nudgeActionOf. destruct choice as [c|]; auto.
    destruct (String.eqb c "Take Break"); auto.
    destruct (String.eqb c "Request Hint"); auto. }
  destruct Hcases as [E|[E|E]]; rewrite E; unfold execState; cbn;
    rewrite ?app_nil_r; reflexivity.
Qed.

(** X8. Whatever the host passes to the continuation of the nudge, exactly
    one [nudge] event is logged; its action is [break] for "Take Break",
    [hint] for "Request Hint" and [ignored] for anything else, a dismissed
    prompt included.  The answer changes no metric and no score history,
    and the message that may follow offers no choices, so answering a nudge
    never raises another one. *)
Theorem nudge_answer_logged_once :
  forall (h : Host) (choice : option string) (st : State),
    let st' := execState (onNudgeChoice h choice) st in
    let action := nudgeActionOf choice in
    events st' = events st ++ [mkEvent (ev_nudge action) (clock h (clockReads st))]
    /\ In action ["break"; "hint"; "ignored"]%string
    /\ shown st' = shown st ++ nudgeFollowUp action
    /\ Forall (fun p => p_items p = []) (nudgeFollowUp action)
    /\ metrics st' = metrics st
    /\ history st' = history st
    /\ assistMode st' = assistMode st.
Proof.
  intros h choice st. cbv zeta. rewrite onNudgeChoice_run.
  split; [reflexivity|]. split.
  - unfold nudgeActionOf. destruct choice as [c|]; simpl; auto.
    destruct (String.eqb c "Take Break"); simpl; auto.
    destruct (String.eqb c "Request Hint"); simpl; auto.
  - split; [reflexivity|]. split; [|repeat split].
    unfold nudgeFollowUp.
    destruct (String.eqb (nudgeActionOf choice) "break");
      [repeat constructor|].
    destruct (String.eqb (nudgeActionOf choice) "hint"); repeat constructor.
Qed.

Lemma toggleAssist_run (h : Host) (st : State) :
  execState (toggleAssist h) st
  = set_events
      (events st
       ++ [mkEvent (ev_assist_toggle (negb (assistMode st))) (clock h (clockReads st))])
      (set_clockReads (S (clockReads st))
         (set_shown
            (shown st
             ++ [mkPrompt ("VibeFlow: Assist mode "
                           ++ (if negb (assistMode st) then "enabled" else "disabled")
                           ++ ".")%string []])
            (set_assistMode (negb (assistMode st)) st))).
Proof. reflexivity. Qed.

(** X9. Toggling assist mode twice restores the flag.  Each toggle logs
    one [assist.toggle] event carrying the new value and shows one message
    without choices; no metric, no history and no activity entry changes. *)
Theorem toggleAssist_twice :
  forall (h : Host) (st : State),
    let st1 := execState (toggleAssist h) st in
    let st2 := execState (toggleAssist h) st1 in
    assistMode st1 = negb (assistMode st)
    /\ assistMode st2 = assistMode st
    /\ events st2
       = events st
         ++ [mkEvent (ev_assist_toggle (negb (assistMode st))) (clock h (clockReads st));
             mkEvent (ev_assist_toggle (assistMode st)) (clock h (S (clockReads st)))]
    /\ metrics st2 = metrics st
    /\ history st2 = history st
    /\ activity st2 = activity st.
Proof.
  intros h st. cbv zeta. rewrite !toggleAssist_run.
  cbn. rewrite negb_involutive, <- app_assoc. repeat split.
Qed.

(** X10. A low streak built up while assist mode was off is not forgotten:
    once the counter has reached 4, the first low scoring tick after assist
    mode is switched on shows the nudge and resets the counter, without
    waiting for five more low ticks. *)
Theorem nudge_fires_right_after_enabling :
  forall (h : Host) (st st2 : State) (f : Z),
    assistMode st = false ->
    4 <= consecutiveLow (metrics st) ->
    runState (Windowed.updateStatus h) (execState (toggleAssist h) st) = (Some f, st2) ->
    f < 45 ->
    consecutiveLow (metrics st2) = 0
    /\ assistMode st2 = true
    /\ shown st2
       = shown st ++ [mkPrompt "VibeFlow: Assist mode enabled." []; nudgePrompt].
Proof.
  intros h st st2 f Ha Hc Hrun Hlow.
  destruct (windowed_low_counter h _ st2 (Some f) Hrun) as (Ha2 & Hc2 & Hp2).
  rewrite toggleAssist_run in Ha2, Hc2, Hp2.
  cbn [assistMode set_events set_clockReads set_shown set_assistMode
       metrics shown] in Ha2, Hc2, Hp2.
  rewrite Ha in Ha2, Hc2, Hp2. cbn [negb] in Ha2, Hc2, Hp2.
  replace (f >=? 45) with false in Hc2, Hp2
    by (symmetry; rewrite Z.geb_leb; apply Z.leb_gt; exact Hlow).
  replace (consecutiveLow (metrics st) + 1 >=? 5) with true in Hc2, Hp2
    by (symmetry; rewrite Z.geb_leb; apply Z.leb_le; lia).
  cbn [negb andb] in Hc2, Hp2.
  split; [exact Hc2|]. split; [exact Ha2|].
  rewrite Hp2, <- app_assoc. reflexivity.
Qed.

(** A session that went low seven times with assist off, then switched it
    on. *)
Lemma nudge_fires_right_after_enabling_witness :
  let st := set_metrics (mkMetrics 1000 0 0 0 0 0 7) (freshState 1000 false) in
  let st2 := execState (Windowed.updateStatus steadyHost)
                       (execState (toggleAssist steadyHost) st) in
  consecutiveLow (metrics st2) = 0
  /\ shown st2 = [mkPrompt "VibeFlow: Assist mode enabled." []; nudgePrompt].
Proof.
  intros st st2.
  destruct (nudge_fires_right_after_enabling steadyHost st st2 0) as (Hc & _ & Hp).
  - reflexivity.
  - vm_compute. discriminate.
  - vm_compute. reflexivity.
  - reflexivity.
  - split; [exact Hc | exact Hp].
Defined.

(** ** The pace of the history *)

Lemma spaced_snoc (l : list FlowSample) (lu : Z) (a : FlowSample) :
  spaced l ->
  Forall (fun smp => h_ts smp <= lu) l ->
  lu + 1000 <= h_ts a ->
  spaced (l ++ [a]).
Proof.
  intros Hs Hf Ha. induction l as [|x r IH]; simpl.
  - auto.
  - destruct Hs as (Hx & Hr). inversion Hf as [|? ? Hxl Hrl]; subst.
    split; [|apply IH; assumption].
    destruct r as [|b r']; simpl; [lia | exact Hx].
Qed.

Lemma spaced_tl (l : list FlowSample) : spaced l -> spaced (tl l).
Proof. destruct l as [|x r]; simpl; tauto. Qed.

Lemma Forall_tl {A : Type} (P : A -> Prop) (l : list A) :
  Forall P l -> Forall P (tl l).
Proof. destruct l; simpl; [auto | now inversion 1]. Qed.

Lemma pushHistory_paced (l : list FlowSample) (lu now f : Z) :
  spaced l ->
  Forall (fun smp => h_ts smp <= lu) l ->
  lu + 1000 <= now ->
  spaced (pushHistory (mkSample now f) l)
  /\ Forall (fun smp => h_ts smp <= now) (pushHistory (mkSample now f) l).
Proof.
  intros Hs Hf Hn.
  assert (Hs' : spaced (l ++ [mkSample now f])).
  { apply (spaced_snoc l lu); auto. }
  assert (Hf' : Forall (fun smp => h_ts smp <= now) (l ++ [mkSample now f])).
  { apply Forall_app. split.
    - eapply Forall_impl; [|exact Hf]. simpl. intros; lia.
    - constructor; [simpl; lia | constructor]. }
  unfold pushHistory.
  destruct (Z.of_nat (List.length (l ++ [mkSample now f])) >? 20000).
  - split; [apply spaced_tl | apply Forall_tl]; assumption.
  - split; assumption.
Qed.

(** X11. The samples of a session are at least one second apart: if the
    history is spaced by 1000 ms and holds nothing later than the last
    scoring tick, it is so again after any call of [updateStatus], scoring
    or throttled; both variants. *)
Theorem history_stays_paced :
  forall (h : Host) (st st' : State) (r : option Z),
    runState (Windowed.updateStatus h) st = (r, st')
    \/ runState (Demo.updateStatus h) st = (r, st') ->
    historyPaced st ->
    historyPaced st'.
Proof.
  intros h st st' r Hrun (Hs & Hf). unfold historyPaced.
  destruct r as [f|].
  - assert (Heff : 1000 <= clock h (clockReads st) - lastUpdate st
                   /\ history st'
                      = pushHistory (mkSample (clock h (clockReads st)) f) (history st)
                   /\ lastUpdate st' = clock h (clockReads st)).
    { destruct Hrun as [Hrun|Hrun].
      - unfold Windowed.updateStatus in Hrun.
        destruct (windowed_tick_effect h Windowed.flowScore st st' f Hrun)
          as (Hgo & _ & Hh & _ & Hl & _). auto.
      - unfold Demo.updateStatus in Hrun.
        destruct (demo_tick_effect h Demo.flowScore st st' f Hrun)
          as (Hgo & _ & Hh & _ & Hl & _). auto. }
    destruct Heff as (Hgo & -> & ->).
    apply (pushHistory_paced _ (lastUpdate st)); auto. lia.
  - assert (Est : st' = set_clockReads (S (clockReads st)) st).
    { destruct Hrun as [Hrun|Hrun].
      - unfold Windowed.updateStatus in Hrun.
        now destruct (windowed_tick_none h Windowed.flowScore st st' Hrun).
      - unfold Demo.updateStatus in Hrun.
        now destruct (demo_tick_none h Demo.flowScore st st' Hrun). }
    subst st'. split; assumption.
Qed.

(** The second scoring tick of a session. *)
Lemma history_stays_paced_witness :
  let st1 := execState (Windowed.updateStatus steadyHost) (freshState 1000 false) in
  let st2 := execState (Windowed.updateStatus steadyHost) st1 in
  historyPaced st2 /\ history st2 = [mkSample 100000 0; mkSample 102000 0].
Proof.
  intros st1 st2. split; [|vm_compute; reflexivity].
  apply (history_stays_paced steadyHost st1 st2
           (evalState (Windowed.updateStatus steadyHost) st1)).
  - left. vm_compute. reflexivity.
  - assert (Hh : history st1 = [mkSample 100000 0]) by (vm_compute; reflexivity).
    assert (Hl : lastUpdate st1 = 100000) by (vm_compute; reflexivity).
    unfold historyPaced. rewrite Hh, Hl. split.
    + simpl. auto.
    + constructor; [simpl; lia | constructor].
Defined.

(** ** More of the scores *)

Lemma JS_div_nonneg (a b : Z) : 0 <= a -> 0 < b -> (0 <= JS.div a b)%Q.
Proof.
  intros Ha Hb. unfold JS.div. apply Qle_shift_div_l.
  - change 0%Q with (inject_Z 0). rewrite <- Zlt_Qlt. exact Hb.
  - rewrite Qmult_0_l. change 0%Q with (inject_Z 0). rewrite <- Zle_Qle. exact Ha.
Qed.

Lemma JS_div_mono (a b : Z) : a <= b -> (JS.div a 1000 <= JS.div b 1000)%Q.
Proof.
  intros Hab. unfold JS.div, Qdiv. apply Qmult_le_compat_r.
  - rewrite <- Zle_Qle. exact Hab.
  - discriminate.
Qed.

Lemma clamp_le (x y : Z) : x <= y -> Z.max 0 (Z.min 100 x) <= Z.max 0 (Z.min 100 y).
Proof. lia. Qed.

Lemma round_le (x y : Q) : (x <= y)%Q -> JS.Math_round x <= JS.Math_round y.
Proof.
  intros H. unfold JS.Math_round. apply Qfloor_resp_le.
  apply Qplus_le_l. exact H.
Qed.

Lemma round_shift (x : Q) (k : Z) :
  JS.Math_round (x + inject_Z k) = JS.Math_round x + k.
Proof.
  unfold JS.Math_round.
  pose proof (Qfloor_le (x + (1 # 2))) as Hlo.
  pose proof (Qlt_floor (x + (1 # 2))) as Hhi.
  apply floor_unique.
  - rewrite inject_Z_plus. lra.
  - rewrite !inject_Z_plus in *. lra.
Qed.

Lemma recentOf_stale (now : Z) (act : list ActivityEntry) :
  Forall (fun a => a_ts a + 60000 <= now) act -> Windowed.recentOf now act = [].
Proof.
  unfold Windowed.recentOf, Windowed.windowSize.
  induction 1 as [|a r Ha Hr IH]; simpl; [reflexivity|].
  replace (now - a_ts a <? 60000) with false
    by (symmetry; apply Z.ltb_ge; lia).
  exact IH.
Qed.

Lemma metricScore_at_most_60 (m : Metrics) :
  0 <= undoCount m -> (Windowed.metricScore m <= 60)%Q.
Proof.
  intros Hu. unfold Windowed.metricScore. cbv zeta.
  pose proof (Q.le_min_l 1 (JS.div (aiInsertions m) (Z.max 1 (totalInsertions m)))) as Ha.
  assert (Hp : (0 <= Qmin 1 (JS.div (undoCount m) (Z.max 1 (totalInsertions m))))%Q).
  { apply Q.min_glb; [discriminate|]. apply JS_div_nonneg; lia. }
  revert Ha Hp.
  generalize (Qmin 1 (JS.div (aiInsertions m) (Z.max 1 (totalInsertions m)))),
             (Qmin 1 (JS.div (undoCount m) (Z.max 1 (totalInsertions m)))).
  intros a u Ha Hp. lra.
Qed.

Lemma idleDecay_saturated (now : Z) (m : Metrics) :
  lastChangeTs m + 50000 <= now -> (Windowed.idleDecay now [] m == 50)%Q.
Proof.
  intros Hi. unfold Windowed.idleDecay, Windowed.lastActivity. cbv zeta.
  simpl JS.at_last. simpl option_map. simpl JS.orElse. rewrite JS_or_0.
  apply Q.min_l. unfold JS.div. apply Qle_shift_div_l; [reflexivity|].
  change 50%Q with (inject_Z 50). rewrite <- inject_Z_mult, <- Zle_Qle. lia.
Qed.

(** X12. A windowed session with no activity entry in the last 60 seconds
    and no change in the last 50 seconds scores at most 32, whatever its
    counters (with [undoCount] non-negative) and whatever the draw: the
    keystroke term is 0, the idle decay is at its cap of 50, and the
    outcome term is at most 60.  Every such tick is a low tick. *)
Theorem idle_session_scores_low :
  forall (m : Metrics) (act : list ActivityEntry) (now : Z) (rnd : Q),
    Forall (fun a => a_ts a + 60000 <= now) act ->
    lastChangeTs m + 50000 <= now ->
    0 <= undoCount m ->
    (0 <= rnd)%Q -> (rnd < 1)%Q ->
    Windowed.flowScore m act now rnd <= 32.
Proof.
  intros m act now rnd Hact Hidle Hu H0 H1.
  pose proof (windowed_jitter_range rnd H0 H1) as Hj.
  unfold Windowed.flowScore, Windowed.clampRound.
  rewrite round_shift.
  assert (Hraw : (Windowed.rawFlow m act now <= 30)%Q).
  { unfold Windowed.rawFlow. cbv zeta. rewrite (recentOf_stale now act Hact).
    rewrite (idleDecay_saturated now m Hidle).
    pose proof (metricScore_at_most_60 m Hu) as Hm.
    change (Windowed.keystrokeScore now []) with (Qmin 0 50).
    assert (Hk : (Qmin 0 50 == 0)%Q) by reflexivity.
    assert (Hr : (Windowed.rhythmBonus [] == 20)%Q) by reflexivity.
    rewrite Hk, Hr. revert Hm. generalize (Windowed.metricScore m). intros q Hm. lra. }
  apply round_le in Hraw. change (JS.Math_round 30) with 30 in Hraw.
  revert Hraw. generalize (JS.Math_round (Windowed.rawFlow m act now)). intros z Hz. lia.
Qed.

(** The example metrics, a minute and a half after the last change. *)
Lemma idle_session_scores_low_witness :
  Windowed.flowScore (exampleMetrics 1000) [mkActivity 2000 10] 100000 (1 # 2) <= 32.
Proof.
  apply idle_session_scores_low.
  - constructor; [simpl; lia | constructor].
  - simpl. lia.
  - simpl. lia.
  - discriminate.
  - reflexivity.
Defined.

Lemma at_last_In {A : Type} (l : list A) (e : A) :
  In e l -> exists a, JS.at_last l = Some a /\ In a l.
Proof.
  intros He. unfold JS.at_last.
  destruct (rev l) as [|a r] eqn:E.
  - apply in_rev in He. rewrite E in He. contradiction.
  - exists a. split; [reflexivity|]. apply in_rev. rewrite E. now left.
Qed.

(** X13. While the window holds an insertion of the last 60 seconds (and
    timestamps are non-zero), the windowed score does not depend on
    [lastChangeTs]: the idle time is measured from the last recent entry.
    In particular the backdating of [lastChangeTs] by two minutes on focus
    loss does not lower the score then. *)
Theorem recent_activity_masks_lastChangeTs :
  forall (m : Metrics) (act : list ActivityEntry) (now : Z) (rnd : Q)
         (e : ActivityEntry) (v : Z),
    In e act ->
    now - a_ts e < 60000 ->
    Forall (fun a => a_ts a <> 0) act ->
    Windowed.flowScore (set_lastChangeTs v m) act now rnd
    = Windowed.flowScore m act now rnd.
Proof.
  intros m act now rnd e v He Hrecent Hnz.
  assert (Hin : In e (Windowed.recentOf now act)).
  { unfold Windowed.recentOf. apply filter_In. split; [exact He|].
    apply Z.ltb_lt. exact Hrecent. }
  destruct (at_last_In _ e Hin) as (a & Hlast & Ha).
  assert (Hts : a_ts a <> 0).
  { unfold Windowed.recentOf in Ha. apply filter_In in Ha. destruct Ha as (Ha & _).
    rewrite Forall_forall in Hnz. exact (Hnz a Ha). }
  assert (E : forall lc, Windowed.lastActivity (Windowed.recentOf now act)
                           (set_lastChangeTs lc m) = a_ts a).
  { intros lc. unfold Windowed.lastActivity. rewrite Hlast. simpl.
    unfold JS.or. destruct (Z.eqb_spec (a_ts a) 0); [contradiction|].
    destruct (Z.eqb_spec (a_ts a) 0); [contradiction | reflexivity]. }
  assert (E' : Windowed.lastActivity (Windowed.recentOf now act) m = a_ts a).
  { rewrite <- (E (lastChangeTs m)). destruct m; reflexivity. }
  unfold Windowed.flowScore, Windowed.rawFlow, Windowed.idleDecay. cbv zeta.
  rewrite E, E'. unfold Windowed.metricScore.
  cbn [set_lastChangeTs totalInsertions aiInsertions undoCount]. reflexivity.
Qed.

(** An insertion ten seconds ago, [lastChangeTs] backdated by two minutes. *)
Lemma recent_activity_masks_lastChangeTs_witness :
  Windowed.flowScore (set_lastChangeTs (100000 - 120000) (exampleMetrics 90000))
                     [mkActivity 90000 5] 100000 (1 # 2)
  = Windowed.flowScore (exampleMetrics 90000) [mkActivity 90000 5] 100000 (1 # 2).
Proof.
  apply (recent_activity_masks_lastChangeTs _ _ _ _ (mkActivity 90000 5)).
  - left. reflexivity.
  - simpl. lia.
  - constructor; [simpl; lia | constructor].
Defined.

Lemma demo_rawFlow_mono (m : Metrics) (now1 now2 : Z) :
  now1 <= now2 -> (Demo.rawFlow m now2 <= Demo.rawFlow m now1)%Q.
Proof.
  intros Hle. unfold Demo.rawFlow. cbv zeta.
  assert (Hi : (Qmin 1 (JS.div (now1 - lastChangeTs m) 1000 / 300)
                <= Qmin 1 (JS.div (now2 - lastChangeTs m) 1000 / 300))%Q).
  { apply Q.min_le_compat_l. unfold Qdiv. apply Qmult_le_compat_r.
    - apply JS_div_mono. lia.
    - discriminate. }
  revert Hi.
  generalize (Qmin 1 (JS.div (now1 - lastChangeTs m) 1000 / 300)),
             (Qmin 1 (JS.div (now2 - lastChangeTs m) 1000 / 300)),
             (Qmin 1 (JS.div (aiInsertions m) (Z.max 1 (totalInsertions m)))),
             (Qmin 1 (JS.div (undoCount m) (Z.max 1 (totalInsertions m)))),
             (Qmin 1 (JS.div (aiRejections m) (aiInsertions m + aiRejections m + 1))).
  intros i1 i2 a u r Hi. lra.
Qed.

(** X14. In the simplified variant time alone never raises the score: with
    the same metrics and the same draw, the score at a later clock reading
    is at most the score at an earlier one. *)
Theorem demo_idle_never_raises_score :
  forall (m : Metrics) (now1 now2 : Z) (rnd : Q),
    now1 <= now2 ->
    Demo.flowScore m now2 rnd <= Demo.flowScore m now1 rnd.
Proof.
  intros m now1 now2 rnd Hle.
  unfold Demo.flowScore, Demo.clampRound. apply clamp_le, round_le.
  apply Qplus_le_l. apply demo_rawFlow_mono. exact Hle.
Qed.

(** One millisecond is enough to lose a point. *)
Lemma demo_idle_never_raises_score_witness :
  Demo.flowScore (mkMetrics 1000 0 0 0 0 0 0) 16001 (1 # 2)
  <= Demo.flowScore (mkMetrics 1000 0 0 0 0 0 0) 16000 (1 # 2).
Proof. apply demo_idle_never_raises_score. lia. Defined.

Lemma demo_rawFlow_saturated (m : Metrics) (now : Z) :
  lastChangeTs m + 300000 <= now ->
  (Demo.rawFlow m now == Demo.rawFlow m (lastChangeTs m + 300000))%Q.
Proof.
  intros Hle. unfold Demo.rawFlow. cbv zeta.
  assert (Hsat : forall t, lastChangeTs m + 300000 <= t ->
                 (Qmin 1 (JS.div (t - lastChangeTs m) 1000 / 300) == 1)%Q).
  { intros t Ht. apply Q.min_l. apply Qle_shift_div_l; [reflexivity|].
    unfold JS.div. apply Qle_shift_div_l; [reflexivity|].
    change (1 * 300 * inject_Z 1000)%Q with (inject_Z 300000).
    rewrite <- Zle_Qle. lia. }
  rewrite (Hsat now Hle), (Hsat (lastChangeTs m + 300000)); [reflexivity | lia].
Qed.

(** X15. In the simplified variant the idle penalty is capped: from five
    minutes after the last change on, the score no longer depends on the
    clock. *)
Theorem demo_idle_penalty_saturates :
  forall (m : Metrics) (now : Z) (rnd : Q),
    lastChangeTs m + 300000 <= now ->
    Demo.flowScore m now rnd = Demo.flowScore m (lastChangeTs m + 300000) rnd.
Proof.
  intros m now rnd Hle.
  unfold Demo.flowScore, Demo.clampRound. f_equal. f_equal.
  apply Math_round_comp. rewrite (demo_rawFlow_saturated m now Hle). reflexivity.
Qed.

(** Five minutes and an hour after the last change. *)
Lemma demo_idle_penalty_saturates_witness :
  Demo.flowScore (exampleMetrics 1000) 3601000 (1 # 2)
  = Demo.flowScore (exampleMetrics 1000) (1000 + 300000) (1 # 2).
Proof.
  apply (demo_idle_penalty_saturates (exampleMetrics 1000) 3601000 (1 # 2)).
  simpl. lia.
Defined.

Lemma demo_rejectPenalty_range (m : Metrics) :
  0 <= aiInsertions m -> 0 <= aiRejections m ->
  (0 <= Qmin 1 (JS.div (aiRejections m) (aiInsertions m + aiRejections m + 1)) <= 1)%Q.
Proof.
  intros Ha Hr. split.
  - apply Q.min_glb; [discriminate|]. apply JS_div_nonneg; lia.
  - apply Q.le_min_l.
Qed.

(** X16. In the simplified variant logged AI rejections never raise the
    score and cost at most 5 points: with non-negative counters the score
    lies between the score of the same metrics without rejections, minus 5,
    and that score. *)
Theorem demo_rejections_cost_at_most_5 :
  forall (m : Metrics) (now : Z) (rnd : Q),
    0 <= aiInsertions m ->
    0 <= aiRejections m ->
    Demo.flowScore (set_aiRejections 0 m) now rnd - 5
    <= Demo.flowScore m now rnd
    <= Demo.flowScore (set_aiRejections 0 m) now rnd.
Proof.
  intros m now rnd Ha Hr.
  pose proof (demo_rejectPenalty_range m Ha Hr) as Hp.
  assert (H0 : (Qmin 1 (JS.div 0 (aiInsertions m + 0 + 1)) == 0)%Q).
  { assert (Hx : (JS.div 0 (aiInsertions m + 0 + 1) == 0)%Q)
      by (unfold JS.div, Qdiv; apply Qmult_0_l).
    rewrite Q.min_r; [exact Hx | rewrite Hx; discriminate]. }
  assert (Hraw : (Demo.rawFlow (set_aiRejections 0 m) now + - inject_Z 5
                  <= Demo.rawFlow m now)%Q
                 /\ (Demo.rawFlow m now <= Demo.rawFlow (set_aiRejections 0 m) now)%Q).
  { unfold Demo.rawFlow. cbv zeta.
    cbn [set_aiRejections lastChangeTs totalInsertions aiInsertions
         aiRejections undoCount].
    rewrite H0. revert Hp.
    generalize (Qmin 1 (JS.div (aiRejections m) (aiInsertions m + aiRejections m + 1))),
               (Qmin 1 (JS.div (now - lastChangeTs m) 1000 / 300)),
               (Qmin 1 (JS.div (aiInsertions m) (Z.max 1 (totalInsertions m)))),
               (Qmin 1 (JS.div (undoCount m) (Z.max 1 (totalInsertions m)))).
    intros p i a u Hp. change (inject_Z 5) with 5%Q. split; lra. }
  destruct Hraw as (Hlo & Hhi).
  unfold Demo.flowScore, Demo.clampRound.
  apply (Qplus_le_l _ _ (inject_Z (Demo.jitter rnd))) in Hlo, Hhi.
  apply round_le in Hlo, Hhi.
  assert (Hshift : JS.Math_round
                     (Demo.rawFlow (set_aiRejections 0 m) now + - inject_Z 5
                      + inject_Z (Demo.jitter rnd))
                   = JS.Math_round
                       (Demo.rawFlow (set_aiRejections 0 m) now
                        + inject_Z (Demo.jitter rnd)) - 5).
  { transitivity (JS.Math_round
                    (Demo.rawFlow (set_aiRejections 0 m) now
                     + inject_Z (Demo.jitter rnd) + inject_Z (-5))).
    - apply Math_round_comp.
      change (inject_Z (-5)) with (- inject_Z 5)%Q. ring.
    - rewrite round_shift. lia. }
  rewrite Hshift in Hlo.
  revert Hlo Hhi.
  generalize (JS.Math_round (Demo.rawFlow (set_aiRejections 0 m) now
                             + inject_Z (Demo.jitter rnd))),
             (JS.Math_round (Demo.rawFlow m now + inject_Z (Demo.jitter rnd))).
  intros z0 z Hlo Hhi. lia.
Qed.

(** One rejection on blank metrics: 28 against 30. *)
Lemma demo_rejections_cost_at_most_5_witness :
  Demo.flowScore (set_aiRejections 0 (mkMetrics 0 0 0 0 1 0 0)) 0 (1 # 2) - 5
  <= Demo.flowScore (mkMetrics 0 0 0 0 1 0 0) 0 (1 # 2)
  <= Demo.flowScore (set_aiRejections 0 (mkMetrics 0 0 0 0 1 0 0)) 0 (1 # 2).
Proof. apply demo_rejections_cost_at_most_5; simpl; lia. Defined.

(** ** The sliding window *)

(** The window after one sub-change. *)
Lemma windowed_handleChange_window (h : Host) (now : Z) (c : Change) (st : State) :
  activity (execState (Windowed.handleChange h now c) st)
  = Windowed.pruneOld (now - 300000) (activity st)
    ++ (if JS.length (text c) >? 0 then [mkActivity now (JS.length (text c))] else []).
Proof.
  unfold Windowed.handleChange, execState.
  rewrite !JS_or_0.
  destruct (JS.length (text c) >? 0) eqn:En, (rangeLength c =? 0) eqn:Er0,
           (rangeLength c >? 0) eqn:Er, (JS.length (text c) =? 0) eqn:En0,
           ((JS.length (text c) >? 40) || JS.includes_newline (text c)) eqn:Eai;
    cbn; rewrite ?app_nil_r; try reflexivity;
    apply pruneOld_keeps_new; lia.
Qed.

Lemma pruneOld_within (cutoff hi : Z) (act : list ActivityEntry) :
  StronglySorted (fun a b => a_ts a <= a_ts b) act ->
  Forall (fun a => a_ts a <= hi) act ->
  windowWithin cutoff hi (Windowed.pruneOld cutoff act).
Proof.
  intros Hs Hf. induction act as [|a r IH]; simpl.
  - split; constructor.
  - apply StronglySorted_inv in Hs. destruct Hs as (Hr & Ha).
    inversion Hf as [|? ? Hah Hrh]; subst.
    destruct (Z.ltb_spec (a_ts a) cutoff) as [Hold|Hnew].
    + apply IH; assumption.
    + split.
      * constructor; assumption.
      * constructor; [lia|].
        rewrite Forall_forall in *. intros b Hb.
        specialize (Ha b Hb). specialize (Hrh b Hb). lia.
Qed.

Lemma within_snoc (lo hi size : Z) (act : list ActivityEntry) :
  lo <= hi ->
  windowWithin lo hi act ->
  windowWithin lo hi (act ++ [mkActivity hi size]).
Proof.
  intros Hle (Hs & Hf). split.
  - induction act as [|a r IH]; simpl.
    + repeat constructor.
    + apply StronglySorted_inv in Hs. destruct Hs as (Hr & Ha).
      inversion Hf as [|? ? Hah Hrh]; subst.
      constructor; [apply IH; assumption|].
      apply Forall_app. split; [exact Ha|].
      constructor; [simpl; lia | constructor].
  - apply Forall_app. split; [exact Hf|].
    constructor; [simpl; lia | constructor].
Qed.

Lemma windowed_handleChange_within (h : Host) (now lo : Z) (c : Change) (st : State) :
  windowWithin lo now (activity st) ->
  windowWithin (now - 300000) now
               (activity (execState (Windowed.handleChange h now c) st)).
Proof.
  intros (Hs & Hf). rewrite windowed_handleChange_window.
  assert (Hp : windowWithin (now - 300000) now
                 (Windowed.pruneOld (now - 300000) (activity st))).
  { apply pruneOld_within; [exact Hs|].
    eapply Forall_impl; [|exact Hf]. simpl. intros; lia. }
  destruct (JS.length (text c) >? 0).
  - apply within_snoc; [lia | exact Hp].
  - rewrite app_nil_r. exact Hp.
Qed.

Lemma windowed_forEach_within (h : Host) (now : Z) (cs : list Change) :
  forall st,
    windowWithin (now - 300000) now (activity st) ->
    windowWithin (now - 300000) now
                 (activity (execState (Windowed.forEachChange h now cs) st)).
Proof.
  induction cs as [|c cs IH]; intros st Hw.
  - exact Hw.
  - rewrite windowed_forEach_cons, execState_bind. apply IH.
    apply (windowed_handleChange_within h now (now - 300000)). exact Hw.
Qed.

(** X17. The window never holds an entry older than five minutes after a
    text-change notification with at least one sub-change, provided its
    entries were in arrival order and none is later than the listener's
    clock reading: afterwards they are in arrival order and all lie within
    the last 300,000 ms. *)
Theorem window_holds_last_five_minutes :
  forall (h : Host) (c : Change) (cs : list Change) (st : State) (lo : Z),
    let now := clock h (clockReads st) in
    windowWithin lo now (activity st) ->
    windowWithin (now - 300000) now
      (activity (execState (Windowed.onDidChangeTextDocument h (c :: cs)) st)).
Proof.
  intros h c cs st lo now Hw.
  rewrite windowed_listener_exec. unfold Windowed.updateStatus.
  destruct (windowed_tick_frame h Windowed.flowScore
              (execState (Windowed.forEachChange h now (c :: cs)) (touched h st)))
    as (_ & Ha & _).
  fold now. rewrite Ha.
  rewrite windowed_forEach_cons, execState_bind.
  apply windowed_forEach_within.
  apply (windowed_handleChange_within h now lo). exact Hw.
Qed.

(** A deletion arriving ten minutes after two insertions. *)
Lemma window_holds_last_five_minutes_witness :
  let h := mkHost (fun k => 700000 + Z.of_nat k) (fun _ => 1 # 2) in
  let st := set_activity [mkActivity 50000 3; mkActivity 100000 4]
                         (freshState 1000 false) in
  activity (execState (Windowed.onDidChangeTextDocument h [mkChange "" 1]) st) = []
  /\ windowWithin (700000 - 300000) 700000
       (activity (execState (Windowed.onDidChangeTextDocument h [mkChange "" 1]) st)).
Proof.
  intros h st. split; [vm_compute; reflexivity|].
  apply (window_holds_last_five_minutes h (mkChange "" 1) [] st 0).
  split.
  - repeat constructor; simpl; lia.
  - repeat constructor; simpl; lia.
Defined.

(** ** The dashboard's history *)



